(** * XMODEM byte I/O over UART with an RTC timeout (xmodem_io.c)

    A shallow embedding of the single-byte receive primitive
    [xmodem_io_getc] together with its two interrupt callbacks,
    [uart_callback] and [rtc_callback].

    The C file keeps its state in file-scope variables ([in_byte],
    [rtc_cfg], [xmodem_io_rx_state]); here they are the fields of a
    [world] record that every operation threads through a small
    state-and-divergence monad.  The QMSI drivers are opaque: a call into
    one of them is recorded as an [event] of the world's trace, next to
    the accesses to the volatile state cell and the store through the
    caller's pointer [ch], in program order.

    Interrupts are the environment.  The world carries the schedule of the
    interrupts still to come: its k-th entry lists the interrupt requests
    served, in this order, before the k-th read of [xmodem_io_rx_state] in
    the busy-wait loop; an empty entry is a read that no interrupt preceded.
    The two sources answer what the call has just started (a one-byte read,
    an alarm two seconds ahead), so they are served while the caller waits
    in the loop, not between the statements around it.  When the schedule is
    exhausted no interrupt fires any more, and a loop still reading
    [STATE_WAITING] spins forever, which is the [None] of the monad. *)

(** The file embeds two programs of the repository: the HDC1000 sensor
    example first (module [Hdc1000], its properties in [Hdc1000Props] at the
    end), then the XMODEM byte I/O described above (section [XmodemIo]). *)

From Stdlib Require Import ZArith List Bool Lia.
From Stdlib Require Import Strings.Byte.
From Stdlib Require Strings.String.
Import ListNotations.
Local Open Scope Z_scope.

Set Default Proof Using "Type".

(** Sample values of the header constants, to run the model on: [EIO] and
    [ETIME] as newlib's errno.h numbers them, and one alarm second as 32768
    ticks of the undivided RTC clock. *)
Definition EIO_newlib : Z := 5.
Definition ETIME_newlib : Z := 62.
Definition ALARM_SECOND_32k : Z := 32768.

(** * The HDC1000 sensor example (examples/.../temperature_humidity_sensor/main.c)

    [main] and its four static helpers.  Everything they call lives outside
    the file: the HDC1000 and QMSI drivers and the console.  A call is
    recorded in the history of external calls, and the status a driver call
    returns is the environment's [reply] to that call after that history.
    An invocation of the console macros [QM_PUTS] and [QM_PRINTF] is
    recorded like a call, whatever the build expands them to.

    The loop of [sensor_read] has no structural bound in the model: it takes
    fuel, and [None] is the loop that has not left within it. *)
Module Hdc1000.
Import Stdlib.Strings.String.
Local Open Scope string_scope.
Local Open Scope list_scope.
Local Open Scope Z_scope.

(** Which of the macros [QUARK_SE], [QUARK_D2000] the build sets. *)
Inductive soc_t : Type :=
| soc_QUARK_SE
| soc_QUARK_D2000
| soc_neither.

(** What the build and the headers outside the sources fix: the SoC, the
    macros [QM_CHECK] (qm_common.h; read as: unless [cond], leave the
    function with [error], when parameter checks are compiled in) and
    [IS_SUPPORTED_SoC], [EINVAL], the enumerators of hdc1000_device.h, and
    the address of [main]'s local [sensor_info]. *)
Record build : Type := mk_build {
  soc : soc_t;
  QM_CHECK_enabled : bool;
  IS_SUPPORTED_SoC : bool;
  EINVAL : Z;
  HDC1000_MEASUREMENT_MODE_COMBINED : Z;
  HDC1000_RESOLUTION_14BIT : Z;
  HDC1000_BATTERY_STATUS_LOW_INDICATION_DISABLE : Z;
  HDC1000_DO_SOFT_RESET : Z;
  HDC1000_ID_MANUFACTURER : Z;
  HDC1000_ID_DEVICE : Z;
  HDC1000_ID_SERIAL : Z;
  addr_sensor_info : Z
}.

(** The fields of [qm_i2c_config_t] that [bus_i2c_init] assigns. *)
Record qm_i2c_config_t : Type := mk_i2c_config {
  address_mode : string;
  mode : string;
  speed : string
}.

(** Calls that leave the file; constants that only travel to a driver keep
    their names. *)
Inductive ext_call : Type :=
| Call_QM_PUTS (text : string)
| Call_QM_PRINTF (format : string) (function : string) (status : Z)
| Call_qm_irq_request (irq : string) (isr : string)
| Call_clk_periph_enable (clocks : list string)
| Call_qm_pmux_select (pin : string) (fn : string)
| Call_qm_i2c_set_config (cfg : qm_i2c_config_t)
| Call_dev_hdc1000_read_id (id : Z)
| Call_dev_hdc1000_configure (measure_mode resolution battery reset : Z)
| Call_dev_hdc1000_get_sensor_data (measure_mode : Z) (sensor_info_ptr : Z)
| Call_dev_hdc1000_print_sensor_data (measure_mode : Z) (sensor_info_ptr : Z)
| Call_clk_sys_udelay (microseconds : Z).

Definition SENSOR_READ_INTERVAL : Z := 3000000.
Definition NUM_SENSOR_READ : Z := 10.
Definition NULL : Z := 0.

(** [int] is 32 bits wide on both SoCs; [--loop_count] wraps as the
    machine's decrement does. *)
Definition int_wrap (z : Z) : Z := (z + 2147483648) mod 4294967296 - 2147483648.

Definition is_get_sensor_data (c : ext_call) : bool :=
  match c with Call_dev_hdc1000_get_sensor_data _ _ => true | _ => false end.

Definition is_hdc1000_call (c : ext_call) : bool :=
  match c with
  | Call_dev_hdc1000_read_id _
  | Call_dev_hdc1000_configure _ _ _ _
  | Call_dev_hdc1000_get_sensor_data _ _
  | Call_dev_hdc1000_print_sensor_data _ _ => true
  | _ => false
  end.

Section Example.

Variable bld : build.

(** The status the environment returns to a call, given the calls before. *)
Variable reply : list ext_call -> ext_call -> Z.

Definition M (A : Type) : Type := list ext_call -> option (A * list ext_call).

Definition ret {A : Type} (a : A) : M A := fun h => Some (a, h).

Definition bind {A B : Type} (m : M A) (f : A -> M B) : M B :=
  fun h => match m h with
           | Some (a, h1) => f a h1
           | None => None
           end.

Notation "x <- m ;; k" := (bind m (fun x => k))
  (at level 61, m at next level, right associativity).
Notation "m ;; k" := (bind m (fun _ => k))
  (at level 61, right associativity).

(** A call whose result is used, and a call whose result is not. *)
Definition call (c : ext_call) : M Z := fun h => Some (reply h c, h ++ [c]).

Definition call_ (c : ext_call) : M unit := fun h => Some (tt, h ++ [c]).

(** [QM_CHECK(cond, error);] followed by the rest of the function. *)
Definition QM_CHECK (cond : bool) (error : Z) (rest : M Z) : M Z :=
  if QM_CHECK_enabled bld && negb cond then ret error else rest.

Definition device_verify : M Z :=
  status <- call (Call_dev_hdc1000_read_id (HDC1000_ID_MANUFACTURER bld)) ;;
  if negb (status =? 0) then
    call_ (Call_QM_PRINTF "Error: %s() Manufacturer Id verify failed %d\n"
                          "device_verify" status) ;;
    ret status
  else
  status <- call (Call_dev_hdc1000_read_id (HDC1000_ID_DEVICE bld)) ;;
  if negb (status =? 0) then
    call_ (Call_QM_PRINTF "Error: %s() Device Id verify failed %d\n"
                          "device_verify" status) ;;
    ret status
  else
  status <- call (Call_dev_hdc1000_read_id (HDC1000_ID_SERIAL bld)) ;;
  if negb (status =? 0) then
    call_ (Call_QM_PRINTF "Error: %s() Device Serial Id verify failed %d\n"
                          "device_verify" status) ;;
    ret status
  else
  ret status.

Definition bus_i2c_init : M Z :=
  QM_CHECK (Bool.eqb true (IS_SUPPORTED_SoC bld)) (- EINVAL bld) (
  match soc bld with
  | soc_QUARK_SE =>
      call_ (Call_qm_irq_request "QM_IRQ_I2C_1" "qm_i2c_1_isr") ;;
      (* Enable I2C 1. *)
      call_ (Call_clk_periph_enable ["CLK_PERIPH_CLK"; "CLK_PERIPH_I2C_M1_REGISTER"]) ;;
      (* Setup pin mux. *)
      call_ (Call_qm_pmux_select "QM_PIN_ID_22" "QM_PMUX_FN_0") ;;
      call_ (Call_qm_pmux_select "QM_PIN_ID_23" "QM_PMUX_FN_0")
  | soc_QUARK_D2000 =>
      call_ (Call_qm_irq_request "QM_IRQ_I2C_0" "qm_i2c_0_isr") ;;
      (* Enable I2C 0. *)
      call_ (Call_clk_periph_enable ["CLK_PERIPH_CLK"; "CLK_PERIPH_I2C_M0_REGISTER"]) ;;
      (* Setup pin mux. *)
      call_ (Call_qm_pmux_select "QM_PIN_ID_6" "QM_PMUX_FN_2") ;;
      call_ (Call_qm_pmux_select "QM_PIN_ID_7" "QM_PMUX_FN_2")
  | soc_neither => ret tt
  end ;;
  (* Configure I2C. *)
  call_ (Call_qm_i2c_set_config
           (mk_i2c_config "QM_I2C_7_BIT" "QM_I2C_MASTER" "QM_I2C_SPEED_STD")) ;;
  ret 0).

Definition sensor_init (measure_mode resolution battery reset : Z) : M Z :=
  QM_CHECK (measure_mode <=? HDC1000_MEASUREMENT_MODE_COMBINED bld) (- EINVAL bld) (
  QM_CHECK (resolution <=? HDC1000_RESOLUTION_14BIT bld) (- EINVAL bld) (
  QM_CHECK (battery <=? HDC1000_BATTERY_STATUS_LOW_INDICATION_DISABLE bld)
           (- EINVAL bld) (
  QM_CHECK (reset <=? HDC1000_DO_SOFT_RESET bld) (- EINVAL bld) (
  status <- device_verify ;;
  if negb (status =? 0) then
    call_ (Call_QM_PRINTF "Error: %s() Device verify failed %d\n"
                          "sensor_init" status) ;;
    ret status
  else
  status <- call (Call_dev_hdc1000_configure measure_mode resolution battery reset) ;;
  if negb (status =? 0) then
    call_ (Call_QM_PRINTF "Error: %s() Config failed %d\n" "sensor_init" status) ;;
    ret status
  else
  ret status)))).

(** [do { ... } while (--loop_count);] and the [return status;] after it. *)
Fixpoint sensor_read_loop (fuel : nat) (sensor_info_ptr measure_mode : Z)
    (loop_count : Z) : M Z :=
  match fuel with
  | O => fun _ => None
  | S fuel' =>
      status <- call (Call_dev_hdc1000_get_sensor_data measure_mode sensor_info_ptr) ;;
      if negb (status =? 0) then
        call_ (Call_QM_PRINTF "Error: %s() Getting sensor data failed %d\n"
                              "sensor_read" status) ;;
        ret status
      else
        call_ (Call_dev_hdc1000_print_sensor_data measure_mode sensor_info_ptr) ;;
        call_ (Call_clk_sys_udelay SENSOR_READ_INTERVAL) ;;
        let loop_count := int_wrap (loop_count - 1) in
        if negb (loop_count =? 0)
        then sensor_read_loop fuel' sensor_info_ptr measure_mode loop_count
        else ret status
  end.

Definition sensor_read (fuel : nat) (sensor_info_ptr measure_mode : Z)
    (loop_count : Z) : M Z :=
  QM_CHECK (negb (NULL =? sensor_info_ptr)) (- EINVAL bld) (
  QM_CHECK (measure_mode <=? HDC1000_MEASUREMENT_MODE_COMBINED bld) (- EINVAL bld) (
  sensor_read_loop fuel sensor_info_ptr measure_mode loop_count)).

Definition main (fuel : nat) : M Z :=
  let measure_mode := HDC1000_MEASUREMENT_MODE_COMBINED bld in
  call_ (Call_QM_PUTS "Starting: Grove temperature humidity sensor") ;;
  status <- bus_i2c_init ;;
  status <-
    (if status =? 0 then
       status <- sensor_init measure_mode (HDC1000_RESOLUTION_14BIT bld)
                   (HDC1000_BATTERY_STATUS_LOW_INDICATION_DISABLE bld)
                   (HDC1000_DO_SOFT_RESET bld) ;;
       if status =? 0 then
         status <- sensor_read fuel (addr_sensor_info bld) measure_mode
                     NUM_SENSOR_READ ;;
         (if negb (status =? 0) then
            call_ (Call_QM_PRINTF "Error: %s() Sensor read failed %d\n" "main" status)
          else ret tt) ;;
         ret status
       else
         call_ (Call_QM_PRINTF "Error: %s() Sensor init failed %d\n" "main" status) ;;
         ret status
     else
       call_ (Call_QM_PRINTF "Error: %s() Bus init failed %d\n" "main" status) ;;
       ret status) ;;
  call_ (Call_QM_PUTS "Finished: Grove temperature humidity sensor") ;;
  ret status.

(** The three identifier reads of [device_verify], in program order. *)
Definition id_reads : list ext_call :=
  [Call_dev_hdc1000_read_id (HDC1000_ID_MANUFACTURER bld);
   Call_dev_hdc1000_read_id (HDC1000_ID_DEVICE bld);
   Call_dev_hdc1000_read_id (HDC1000_ID_SERIAL bld)].

(** Every call of [cs], made in this order after the history [h], is
    answered with status [0]. *)
Fixpoint all_succeed (h : list ext_call) (cs : list ext_call) : bool :=
  match cs with
  | [] => true
  | c :: cs' => (reply h c =? 0) && all_succeed (h ++ [c]) cs'
  end.

Definition is_configure (c : ext_call) : bool :=
  match c with Call_dev_hdc1000_configure _ _ _ _ => true | _ => false end.

Definition is_printf (c : ext_call) : bool :=
  match c with Call_QM_PRINTF _ _ _ => true | _ => false end.

(** One pass of the loop of [sensor_read] that got its data. *)
Definition good_round (sensor_info_ptr measure_mode : Z) : list ext_call :=
  [Call_dev_hdc1000_get_sensor_data measure_mode sensor_info_ptr;
   Call_dev_hdc1000_print_sensor_data measure_mode sensor_info_ptr;
   Call_clk_sys_udelay SENSOR_READ_INTERVAL].

Definition good_rounds (k : nat) (sensor_info_ptr measure_mode : Z) : list ext_call :=
  List.concat (List.repeat (good_round sensor_info_ptr measure_mode) k).

(** The pass that did not get its data: the read and the error line. *)
Definition failed_round (sensor_info_ptr measure_mode status : Z) : list ext_call :=
  [Call_dev_hdc1000_get_sensor_data measure_mode sensor_info_ptr;
   Call_QM_PRINTF "Error: %s() Getting sensor data failed %d\n" "sensor_read" status].

End Example.

(** A sample build and two sample environments, to run the model on: the
    D2000 with parameter checks compiled in and enumerators numbered from
    zero; a device that answers every call with [0], and one that answers
    the call made after [n] earlier calls with [status] and every other
    call with [0]. *)
Definition sample_build : build :=
  {| soc := soc_QUARK_D2000;
     QM_CHECK_enabled := true;
     IS_SUPPORTED_SoC := true;
     EINVAL := 22;
     HDC1000_MEASUREMENT_MODE_COMBINED := 2;
     HDC1000_RESOLUTION_14BIT := 2;
     HDC1000_BATTERY_STATUS_LOW_INDICATION_DISABLE := 1;
     HDC1000_DO_SOFT_RESET := 1;
     HDC1000_ID_MANUFACTURER := 0;
     HDC1000_ID_DEVICE := 1;
     HDC1000_ID_SERIAL := 2;
     addr_sensor_info := 4096 |}.

Definition reply_ok : list ext_call -> ext_call -> Z := fun _ _ => 0.

Definition reply_fail_after (n : nat) (status : Z)
  : list ext_call -> ext_call -> Z :=
  fun h _ => if Nat.eqb (List.length h) n then status else 0.

End Hdc1000.

Section XmodemIo.

(** ** Constants of headers outside the sources

    [EIO] and [ETIME] come from <errno.h>, [QM_RTC_ALARM_SECOND] from
    qm_rtc.h.  C and POSIX make the errno macros positive [int] constants
    with distinct values; the theorems that need it say so. *)

Variables EIO ETIME : Z.
Variable QM_RTC_ALARM_SECOND : Z.

Hypothesis EIO_pos : 0 < EIO.
Hypothesis ETIME_pos : 0 < ETIME.
Hypothesis EIO_ETIME : EIO <> ETIME.

Definition XMODEM_UART_TIMEOUT_S : Z := 2.

(** ** Data *)

(** The functions stored in the driver configuration blocks. *)
Inductive callback_t : Type :=
| cb_uart_callback
| cb_rtc_callback.

(** [qm_rtc_config_t]; [callback_data] is a pointer, [0] is NULL. *)
Record qm_rtc_config_t : Type := mk_rtc_config {
  init_val : Z;
  alarm_en : bool;
  alarm_val : Z;
  callback : callback_t;
  callback_data : Z
}.

(** The static initialiser of [rtc_cfg]. *)
Definition rtc_cfg_init : qm_rtc_config_t :=
  {| init_val := 0;
     alarm_en := false;
     alarm_val := QM_RTC_ALARM_SECOND * XMODEM_UART_TIMEOUT_S;
     callback := cb_rtc_callback;
     callback_data := 0 |}.

(** [enum rx_state], by its numeric values: the function returns the
    enumerator converted to [int], and the switch compares numbers. *)
Definition STATE_UART_ERROR : Z := - EIO.
Definition STATE_TIMEOUT : Z := - ETIME.
Definition STATE_UART_RX_DONE : Z := 1.
Definition STATE_WAITING : Z := 2.

(** An interrupt request served by one of the two drivers.  The UART
    driver may have stored a received byte in the transfer buffer
    ([uart_transfer.data], that is [&in_byte]) before it calls the
    completion callback with its [error], [status] and [len]. *)
Inductive irq : Type :=
| irq_uart (rx : option byte) (error : Z) (status : Z) (len : Z)
| irq_rtc.

(** What the calling context does that is visible outside it. *)
Inductive event : Type :=
| Ev_qm_rtc_set_config (cfg : qm_rtc_config_t)
| Ev_qm_uart_irq_read
| Ev_qm_uart_irq_read_terminate
| Ev_rx_state_store (v : Z)
| Ev_rx_state_load (v : Z)
| Ev_ch_store (b : byte).

Record world : Type := mk_world {
  in_byte : byte;
  rtc_cfg : qm_rtc_config_t;
  xmodem_io_rx_state : Z;
  ch_target : byte;               (* the octet the argument [ch] points to *)
  pending : list (list irq);      (* interrupts still to come *)
  trace : list event
}.

Definition set_in_byte (b : byte) (w : world) : world :=
  mk_world b (rtc_cfg w) (xmodem_io_rx_state w) (ch_target w) (pending w) (trace w).

Definition set_rtc_cfg (c : qm_rtc_config_t) (w : world) : world :=
  mk_world (in_byte w) c (xmodem_io_rx_state w) (ch_target w) (pending w) (trace w).

Definition set_rx_state (v : Z) (w : world) : world :=
  mk_world (in_byte w) (rtc_cfg w) v (ch_target w) (pending w) (trace w).

Definition set_ch_target (b : byte) (w : world) : world :=
  mk_world (in_byte w) (rtc_cfg w) (xmodem_io_rx_state w) b (pending w) (trace w).

Definition set_pending (p : list (list irq)) (w : world) : world :=
  mk_world (in_byte w) (rtc_cfg w) (xmodem_io_rx_state w) (ch_target w) p (trace w).

Definition log (e : event) (w : world) : world :=
  mk_world (in_byte w) (rtc_cfg w) (xmodem_io_rx_state w) (ch_target w) (pending w)
           (trace w ++ [e]).

Definition with_alarm_en (b : bool) (c : qm_rtc_config_t) : qm_rtc_config_t :=
  mk_rtc_config (init_val c) b (alarm_val c) (callback c) (callback_data c).

(** The world before [main]: static initialisers, zeroed [in_byte], and the
    state cell zero-initialised as every static object without initialiser. *)
Definition world_init (ch0 : byte) (sched : list (list irq)) : world :=
  mk_world x00 rtc_cfg_init 0 ch0 sched [].

(** ** Callbacks (interrupt context) *)

Definition uart_callback (data : Z) (error : Z) (status : Z) (len : Z)
    (w : world) : world :=
  if error <? 0 then set_rx_state STATE_UART_ERROR w
  else set_rx_state STATE_UART_RX_DONE w.

Definition rtc_callback (data : Z) (w : world) : world :=
  set_rx_state STATE_TIMEOUT w.

(** Serving one request: the UART driver fills the transfer buffer and calls
    [uart_transfer.callback] with [uart_transfer.callback_data] (NULL); the
    RTC driver calls [rtc_cfg.callback] with [rtc_cfg.callback_data]. *)
Definition serve (i : irq) (w : world) : world :=
  match i with
  | irq_uart rx error status len =>
      let w1 := match rx with Some b => set_in_byte b w | None => w end in
      uart_callback 0 error status len w1
  | irq_rtc => rtc_callback (callback_data (rtc_cfg w)) w
  end.

Definition deliver (slot : list irq) (w : world) : world :=
  fold_left (fun acc i => serve i acc) slot w.

(** ** The monad of the calling context *)

Definition M (A : Type) : Type := world -> option (A * world).

Definition ret {A : Type} (a : A) : M A := fun w => Some (a, w).

Definition bind {A B : Type} (m : M A) (f : A -> M B) : M B :=
  fun w => match m w with
           | Some (a, w1) => f a w1
           | None => None
           end.

Notation "x <- m ;; k" := (bind m (fun x => k))
  (at level 61, m at next level, right associativity).
Notation "m ;; k" := (bind m (fun _ => k))
  (at level 61, right associativity).

Definition modify (f : world -> world) : M unit := fun w => Some (tt, f w).

(** ** Driver calls and memory accesses of [xmodem_io_getc] *)

(** [rtc_cfg.alarm_en = b;] *)
Definition assign_alarm_en (b : bool) : M unit :=
  modify (fun w => set_rtc_cfg (with_alarm_en b (rtc_cfg w)) w).

(** [qm_rtc_set_config(QM_RTC_0, &rtc_cfg);] the driver sees the block as
    it is at the call. *)
Definition qm_rtc_set_config : M unit :=
  modify (fun w => log (Ev_qm_rtc_set_config (rtc_cfg w)) w).

(** [xmodem_io_rx_state = v;] *)
Definition store_rx_state (v : Z) : M unit :=
  modify (fun w => log (Ev_rx_state_store v) (set_rx_state v w)).

(** [qm_uart_irq_read(DM_CONFIG_UART, &uart_transfer);] *)
Definition qm_uart_irq_read : M unit := modify (log Ev_qm_uart_irq_read).

(** [qm_uart_irq_read_terminate(DM_CONFIG_UART);] *)
Definition qm_uart_irq_read_terminate : M unit :=
  modify (log Ev_qm_uart_irq_read_terminate).

(** [*ch = in_byte;] *)
Definition store_ch_in_byte : M unit :=
  modify (fun w => log (Ev_ch_store (in_byte w)) (set_ch_target (in_byte w) w)).

(** The caller reading the octet [ch] points to, after a call. *)
Definition load_ch : M byte := fun w => Some (ch_target w, w).

(** [while (retv = xmodem_io_rx_state, retv == STATE_WAITING) { ; }]

    One iteration serves the interrupts of the next slot, then reads the
    cell.  With no slot left the cell can no longer change. *)
Fixpoint wait_loop (slots : list (list irq)) (w : world) : option (Z * world) :=
  match slots with
  | [] =>
      let retv := xmodem_io_rx_state w in
      if retv =? STATE_WAITING then None
      else Some (retv, log (Ev_rx_state_load retv) w)
  | slot :: rest =>
      let w1 := set_pending rest (deliver slot w) in
      let retv := xmodem_io_rx_state w1 in
      let w2 := log (Ev_rx_state_load retv) w1 in
      if retv =? STATE_WAITING then wait_loop rest w2
      else Some (retv, w2)
  end.

Definition busy_wait : M Z := fun w => wait_loop (pending w) w.

(** The labels of [switch (retv)]. *)
Inductive switch_label : Type :=
| case_STATE_TIMEOUT
| case_STATE_UART_RX_DONE
| case_default.

Definition switch_retv (retv : Z) : switch_label :=
  if retv =? STATE_TIMEOUT then case_STATE_TIMEOUT
  else if retv =? STATE_UART_RX_DONE then case_STATE_UART_RX_DONE
  else case_default.

(** ** Receive one byte *)

Definition xmodem_io_getc : M Z :=
  (* Set up timeout timer *)
  assign_alarm_en true ;;
  qm_rtc_set_config ;;
  (* Reseting the state and read byte *)
  store_rx_state STATE_WAITING ;;
  qm_uart_irq_read ;;
  (* Wait for UART interruption or RTC timeout callback *)
  retv <- busy_wait ;;
  match switch_retv retv with
  | case_STATE_TIMEOUT => qm_uart_irq_read_terminate
  | case_STATE_UART_RX_DONE => store_ch_in_byte
  | case_default => ret tt
  end ;;
  (* Disable timer alarm *)
  assign_alarm_en false ;;
  qm_rtc_set_config ;;
  ret retv.

(** ** Vocabulary of the statements *)

(** The value a served request leaves in the state cell. *)
Definition irq_outcome (i : irq) : Z :=
  match i with
  | irq_uart _ error _ _ =>
      if error <? 0 then STATE_UART_ERROR else STATE_UART_RX_DONE
  | irq_rtc => STATE_TIMEOUT
  end.

(** What the body of the switch adds to the trace. *)
Definition switch_events (retv : Z) (b : byte) : list event :=
  match switch_retv retv with
  | case_STATE_TIMEOUT => [Ev_qm_uart_irq_read_terminate]
  | case_STATE_UART_RX_DONE => [Ev_ch_store b]
  | case_default => []
  end.

Definition is_ch_store (e : event) : bool :=
  match e with Ev_ch_store _ => true | _ => false end.

Definition is_read_terminate (e : event) : bool :=
  match e with Ev_qm_uart_irq_read_terminate => true | _ => false end.

Definition is_rtc_set_config (e : event) : bool :=
  match e with Ev_qm_rtc_set_config _ => true | _ => false end.

Definition is_rx_state_store (e : event) : bool :=
  match e with Ev_rx_state_store _ => true | _ => false end.

Definition is_rx_state_load (e : event) : bool :=
  match e with Ev_rx_state_load _ => true | _ => false end.

Definition is_uart_irq_read (e : event) : bool :=
  match e with Ev_qm_uart_irq_read => true | _ => false end.

(** A schedule in which the first interrupts to be served are those of
    [slot], after [n] polls that no interrupt preceded. *)
Definition first_served (n : nat) (slot : list irq) (rest : list (list irq))
  : list (list irq) :=
  repeat [] n ++ slot :: rest.

(** Worlds a program can be in between two calls: the initial one, the one
    a returning call leaves, and whatever other code makes of them.
    [rtc_cfg] is [static] and nothing else in the file assigns to it, so
    other code leaves it alone. *)
Inductive reachable : world -> Prop :=
| reach_init ch0 sched : reachable (world_init ch0 sched)
| reach_getc w retv w' :
    reachable w -> xmodem_io_getc w = Some (retv, w') -> reachable w'
| reach_other w w' : reachable w -> rtc_cfg w' = rtc_cfg w -> reachable w'.

(** How a caller that takes [0] for success reads a status, and whether it
    is wrong about a byte having been received. *)
Definition zero_test (status : Z) : bool := status =? 0.

Definition misread_by_zero_test (status : Z) : bool :=
  negb (Bool.eqb (zero_test status) (status =? STATE_UART_RX_DONE)).

(** ** The handlers *)

Lemma serve_frame i w :
  rtc_cfg (serve i w) = rtc_cfg w /\ ch_target (serve i w) = ch_target w /\
  pending (serve i w) = pending w /\ trace (serve i w) = trace w.
Proof.
  destruct i as [[b|] error status len|]; cbn; unfold uart_callback;
    try destruct (error <? 0); cbn; auto.
Qed.

Lemma serve_state i w : xmodem_io_rx_state (serve i w) = irq_outcome i.
Proof.
  destruct i as [rx error status len|]; cbn; [|reflexivity].
  unfold uart_callback; destruct (error <? 0); reflexivity.
Qed.

Lemma serve_log i e w : serve i (log e w) = log e (serve i w).
Proof.
  destruct i as [[b|] error status len|]; cbn; unfold uart_callback;
    try destruct (error <? 0); reflexivity.
Qed.

Lemma serve_set_pending i p w :
  serve i (set_pending p w) = set_pending p (serve i w).
Proof.
  destruct i as [[b|] error status len|]; cbn; unfold uart_callback;
    try destruct (error <? 0); reflexivity.
Qed.

Lemma serve_in_byte i w1 w2 :
  in_byte w1 = in_byte w2 -> in_byte (serve i w1) = in_byte (serve i w2).
Proof.
  destruct i as [[b|] error status len|]; cbn; unfold uart_callback;
    try destruct (error <? 0); cbn; auto.
Qed.

Lemma deliver_cons i slot w : deliver (i :: slot) w = deliver slot (serve i w).
Proof. reflexivity. Qed.

Lemma deliver_snoc pre i w : deliver (pre ++ [i]) w = serve i (deliver pre w).
Proof. unfold deliver; rewrite fold_left_app; reflexivity. Qed.

Lemma deliver_frame slot : forall w,
  rtc_cfg (deliver slot w) = rtc_cfg w /\ ch_target (deliver slot w) = ch_target w /\
  pending (deliver slot w) = pending w /\ trace (deliver slot w) = trace w.
Proof.
  induction slot as [|i slot IH]; intros w; [cbn; auto|].
  rewrite deliver_cons.
  destruct (IH (serve i w)) as (-> & -> & -> & ->). apply serve_frame.
Qed.

Lemma deliver_log slot : forall e w, deliver slot (log e w) = log e (deliver slot w).
Proof.
  induction slot as [|i slot IH]; intros e w; [reflexivity|].
  rewrite !deliver_cons, serve_log; apply IH.
Qed.

Lemma deliver_set_pending slot : forall p w,
  deliver slot (set_pending p w) = set_pending p (deliver slot w).
Proof.
  induction slot as [|i slot IH]; intros p w; [reflexivity|].
  rewrite !deliver_cons, serve_set_pending; apply IH.
Qed.

Lemma deliver_in_byte slot : forall w1 w2,
  in_byte w1 = in_byte w2 -> in_byte (deliver slot w1) = in_byte (deliver slot w2).
Proof.
  induction slot as [|i slot IH]; intros w1 w2 H; [exact H|].
  rewrite !deliver_cons. apply IH, serve_in_byte, H.
Qed.

Lemma deliver_state_cases slot : forall w,
  xmodem_io_rx_state (deliver slot w) = xmodem_io_rx_state w \/
  xmodem_io_rx_state (deliver slot w) = STATE_UART_ERROR \/
  xmodem_io_rx_state (deliver slot w) = STATE_TIMEOUT \/
  xmodem_io_rx_state (deliver slot w) = STATE_UART_RX_DONE.
Proof.
  induction slot as [|i slot IH]; intros w; [cbn; auto|].
  rewrite deliver_cons.
  destruct (IH (serve i w)) as [H|H]; [|auto].
  right. rewrite H, serve_state.
  destruct i as [rx error status len|]; cbn; [destruct (error <? 0)|]; auto.
Qed.

Lemma irq_outcome_not_waiting i : irq_outcome i <> STATE_WAITING.
Proof using EIO_pos ETIME_pos.
  clear EIO_ETIME.
  unfold STATE_WAITING; destruct i as [rx error status len|]; cbn;
    [destruct (error <? 0)|];
    unfold STATE_UART_ERROR, STATE_TIMEOUT, STATE_UART_RX_DONE; lia.
Qed.

Lemma deliver_keeps_terminal slot : forall w,
  xmodem_io_rx_state w <> STATE_WAITING ->
  xmodem_io_rx_state (deliver slot w) <> STATE_WAITING.
Proof using EIO_pos ETIME_pos.
  induction slot as [|i slot IH]; intros w H; [exact H|].
  rewrite deliver_cons. apply IH. rewrite serve_state. apply irq_outcome_not_waiting.
Qed.

(** ** The busy-wait loop *)

(** Whatever leaves the loop is a value read from the cell that is not
    [STATE_WAITING]; every earlier read saw [STATE_WAITING]. *)
Lemma wait_loop_inv slots : forall w retv w',
  wait_loop slots w = Some (retv, w') ->
  retv <> STATE_WAITING /\
  xmodem_io_rx_state w' = retv /\
  rtc_cfg w' = rtc_cfg w /\
  ch_target w' = ch_target w /\
  (retv = xmodem_io_rx_state w \/ retv = STATE_UART_ERROR \/
   retv = STATE_TIMEOUT \/ retv = STATE_UART_RX_DONE) /\
  exists n, trace w' = trace w ++ repeat (Ev_rx_state_load STATE_WAITING) n
                               ++ [Ev_rx_state_load retv].
Proof.
  induction slots as [|slot rest IH]; intros w retv w'; cbn [wait_loop].
  - destruct (Z.eqb_spec (xmodem_io_rx_state w) STATE_WAITING) as [E|E];
      [discriminate|].
    intros [= <- <-]; cbn. repeat split; auto. exists 0%nat; reflexivity.
  - destruct (deliver_frame slot w) as (Hc & Ht & _ & Htr).
    cbn [xmodem_io_rx_state set_pending log].
    destruct (Z.eqb_spec (xmodem_io_rx_state (deliver slot w)) STATE_WAITING) as [E|E].
    + intros H. apply IH in H. cbn in H.
      destruct H as (Hn & Hs & Hcfg & Hch & Hv & n & Hn').
      repeat split; auto; try congruence.
      * destruct Hv as [Hv|Hv]; [congruence|auto].
      * exists (S n). rewrite Hn', Htr, E, <- app_assoc. reflexivity.
    + intros [= <- <-]; cbn. repeat split; auto.
      * apply deliver_state_cases.
      * exists 0%nat. rewrite Htr. reflexivity.
Qed.

(** The loop ends at the first slot that leaves the cell out of
    [STATE_WAITING]. *)
Lemma wait_loop_run n slot rest : forall w,
  xmodem_io_rx_state w = STATE_WAITING ->
  xmodem_io_rx_state (deliver slot w) <> STATE_WAITING ->
  exists w',
    wait_loop (first_served n slot rest) w
      = Some (xmodem_io_rx_state (deliver slot w), w') /\
    in_byte w' = in_byte (deliver slot w) /\
    pending w' = rest.
Proof.
  unfold first_served.
  induction n as [|n IH]; intros w Hw Hd; cbn [repeat app wait_loop].
  - cbn [xmodem_io_rx_state set_pending log].
    destruct (Z.eqb_spec (xmodem_io_rx_state (deliver slot w)) STATE_WAITING);
      [contradiction|].
    eexists; split; [reflexivity|]. cbn; auto.
  - cbn [deliver fold_left xmodem_io_rx_state set_pending log].
    rewrite Hw, Z.eqb_refl.
    set (w2 := log _ _).
    assert (E : deliver slot w2 =
                log (Ev_rx_state_load STATE_WAITING)
                    (set_pending (repeat [] n ++ slot :: rest) (deliver slot w))).
    { unfold w2. rewrite deliver_log, deliver_set_pending. reflexivity. }
    destruct (IH w2) as (w' & H1 & H2 & H3).
    + exact Hw.
    + rewrite E; exact Hd.
    + exists w'. rewrite H1, H2, E. auto.
Qed.

(** With no interrupt left to come the loop never ends. *)
Lemma wait_loop_spins slots : forall w,
  xmodem_io_rx_state w = STATE_WAITING ->
  (forall slot, In slot slots -> slot = []) ->
  wait_loop slots w = None.
Proof.
  induction slots as [|slot rest IH]; intros w Hw Hall; cbn [wait_loop].
  - rewrite Hw, Z.eqb_refl. reflexivity.
  - rewrite (Hall slot (or_introl eq_refl)).
    cbn [deliver fold_left xmodem_io_rx_state set_pending log].
    rewrite Hw, Z.eqb_refl. apply IH; [exact Hw|].
    intros s Hs; apply Hall; right; exact Hs.
Qed.

Lemma first_nonempty_slot (slots : list (list irq)) :
  (exists slot, In slot slots /\ slot <> []) ->
  exists n pre i rest, slots = first_served n (pre ++ [i]) rest.
Proof.
  induction slots as [|s rest IH]; intros (slot & Hin & Hne); [destruct Hin|].
  destruct s as [|i0 s0].
  - destruct Hin as [<-|Hin]; [congruence|].
    destruct IH as (n & pre & i & rest' & ->); [eauto|].
    exists (S n), pre, i, rest'. reflexivity.
  - destruct (exists_last (l := i0 :: s0)) as (pre & i & E); [discriminate|].
    exists 0%nat, pre, i, rest. rewrite E. reflexivity.
Qed.

(** ** One call of [xmodem_io_getc] *)

(** Everything a returning call has done, in program order. *)
Lemma getc_inv w retv w' :
  xmodem_io_getc w = Some (retv, w') ->
  retv <> STATE_WAITING /\
  (retv = STATE_UART_ERROR \/ retv = STATE_TIMEOUT \/ retv = STATE_UART_RX_DONE) /\
  xmodem_io_rx_state w' = retv /\
  rtc_cfg w' = with_alarm_en false (rtc_cfg w) /\
  ch_target w' = match switch_retv retv with
                 | case_STATE_UART_RX_DONE => in_byte w'
                 | _ => ch_target w
                 end /\
  exists n,
    trace w' = trace w
      ++ [Ev_qm_rtc_set_config (with_alarm_en true (rtc_cfg w));
          Ev_rx_state_store STATE_WAITING;
          Ev_qm_uart_irq_read]
      ++ repeat (Ev_rx_state_load STATE_WAITING) n
      ++ [Ev_rx_state_load retv]
      ++ switch_events retv (in_byte w')
      ++ [Ev_qm_rtc_set_config (with_alarm_en false (rtc_cfg w))].
Proof.
  intros H.
  unfold xmodem_io_getc, bind, assign_alarm_en, qm_rtc_set_config,
    store_rx_state, qm_uart_irq_read, busy_wait, modify in H.
  set (w0 := log Ev_qm_uart_irq_read _) in H.
  destruct (wait_loop (pending w0) w0) as [[r w1]|] eqn:Hloop; [|discriminate].
  apply wait_loop_inv in Hloop.
  destruct Hloop as (Hn & Hs & Hcfg & Hch & Hv & n & Htr).
  assert (Hv' : r = STATE_UART_ERROR \/ r = STATE_TIMEOUT \/ r = STATE_UART_RX_DONE).
  { destruct Hv as [Hv|Hv]; [|exact Hv]. exfalso; apply Hn; exact Hv. }
  unfold switch_events.
  destruct (switch_retv r) eqn:Hsw;
    unfold qm_uart_irq_read_terminate, store_ch_in_byte, ret, modify in H;
    injection H as <- <-; rewrite Hsw; cbn; rewrite Hcfg, Htr; cbn;
    (split; [exact Hn|]); (split; [exact Hv'|]); (split; [exact Hs|]);
    (split; [reflexivity|]); (split; [first [exact Hch|reflexivity]|]);
    exists n; rewrite <- !app_assoc; reflexivity.
Qed.

(** A call returns at the first slot that serves an interrupt, with the
    value its last handler stored. *)
Lemma getc_run w n pre i rest :
  pending w = first_served n (pre ++ [i]) rest ->
  exists w',
    xmodem_io_getc w = Some (irq_outcome i, w') /\
    pending w' = rest /\
    in_byte w' = in_byte (serve i (deliver pre w)).
Proof using EIO_pos ETIME_pos.
  intros Hp.
  unfold xmodem_io_getc, bind, assign_alarm_en, qm_rtc_set_config,
    store_rx_state, qm_uart_irq_read, busy_wait, modify.
  set (w0 := log Ev_qm_uart_irq_read _).
  assert (Hs : xmodem_io_rx_state (deliver (pre ++ [i]) w0) = irq_outcome i).
  { rewrite deliver_snoc. apply serve_state. }
  destruct (wait_loop_run n (pre ++ [i]) rest w0) as (w1 & H1 & H2 & H3).
  - reflexivity.
  - rewrite Hs. apply irq_outcome_not_waiting.
  - change (pending w0) with (pending w). rewrite Hp, H1, Hs.
    assert (Hb : in_byte w1 = in_byte (serve i (deliver pre w))).
    { rewrite H2, <- deliver_snoc. apply deliver_in_byte. reflexivity. }
    destruct (switch_retv (irq_outcome i));
      unfold qm_uart_irq_read_terminate, store_ch_in_byte, ret, modify;
      eexists; (split; [reflexivity|]); cbn; auto.
Qed.

(** A call that no interrupt ever answers does not return. *)
Lemma getc_spins w :
  (forall slot, In slot (pending w) -> slot = []) ->
  xmodem_io_getc w = None.
Proof.
  intros Hall.
  unfold xmodem_io_getc, bind, assign_alarm_en, qm_rtc_set_config,
    store_rx_state, qm_uart_irq_read, busy_wait, modify.
  set (w0 := log Ev_qm_uart_irq_read _).
  rewrite (wait_loop_spins (pending w0) w0); [reflexivity|reflexivity|exact Hall].
Qed.

Lemma switch_retv_timeout : switch_retv STATE_TIMEOUT = case_STATE_TIMEOUT.
Proof. unfold switch_retv. rewrite Z.eqb_refl. reflexivity. Qed.

Lemma switch_retv_rx_done :
  switch_retv STATE_UART_RX_DONE = case_STATE_UART_RX_DONE.
Proof using ETIME_pos.
  clear EIO_pos EIO_ETIME.
  unfold switch_retv, STATE_UART_RX_DONE, STATE_TIMEOUT.
  destruct (Z.eqb_spec 1 (- ETIME)); [lia|reflexivity].
Qed.

Lemma switch_retv_uart_error : switch_retv STATE_UART_ERROR = case_default.
Proof using EIO_pos EIO_ETIME.
  clear ETIME_pos.
  unfold switch_retv, STATE_UART_ERROR, STATE_UART_RX_DONE, STATE_TIMEOUT.
  destruct (Z.eqb_spec (- EIO) (- ETIME)); [lia|].
  destruct (Z.eqb_spec (- EIO) 1); [lia|reflexivity].
Qed.

Lemma filter_loads (f : event -> bool) n :
  (forall v, f (Ev_rx_state_load v) = false) ->
  filter f (repeat (Ev_rx_state_load STATE_WAITING) n) = [].
Proof.
  intros Hf. induction n as [|n IH]; cbn; [reflexivity|].
  rewrite Hf. exact IH.
Qed.

(** The configuration block keeps its static initialiser between calls. *)
Lemma reachable_rtc_cfg w : reachable w -> rtc_cfg w = rtc_cfg_init.
Proof.
  induction 1 as [ch0 sched|w retv w' _ IH Hcall|w w' _ IH Hsame].
  - reflexivity.
  - apply getc_inv in Hcall.
    destruct Hcall as (_ & _ & _ & Hcfg & _). rewrite Hcfg, IH. reflexivity.
  - rewrite Hsame. exact IH.
Qed.

Lemma switch_retv_rx_done_inv retv :
  switch_retv retv = case_STATE_UART_RX_DONE -> retv = STATE_UART_RX_DONE.
Proof.
  unfold switch_retv.
  destruct (retv =? STATE_TIMEOUT); [discriminate|].
  destruct (Z.eqb_spec retv STATE_UART_RX_DONE); [auto|discriminate].
Qed.

Lemma switch_retv_timeout_inv retv :
  switch_retv retv = case_STATE_TIMEOUT -> retv = STATE_TIMEOUT.
Proof.
  unfold switch_retv.
  destruct (Z.eqb_spec retv STATE_TIMEOUT); [auto|].
  destruct (retv =? STATE_UART_RX_DONE); discriminate.
Qed.

(** The events of a returning call, seen through a filter that drops the
    reads of the state cell. *)
Lemma getc_filter (f : event -> bool) w retv w' :
  (forall v, f (Ev_rx_state_load v) = false) ->
  xmodem_io_getc w = Some (retv, w') ->
  exists evs,
    trace w' = trace w ++ evs /\
    filter f evs =
      filter f [Ev_qm_rtc_set_config (with_alarm_en true (rtc_cfg w));
                Ev_rx_state_store STATE_WAITING;
                Ev_qm_uart_irq_read]
      ++ filter f (switch_events retv (in_byte w'))
      ++ filter f [Ev_qm_rtc_set_config (with_alarm_en false (rtc_cfg w))].
Proof.
  intros Hf Hcall. apply getc_inv in Hcall.
  destruct Hcall as (_ & _ & _ & _ & _ & n & Htr).
  eexists; split; [exact Htr|].
  rewrite !filter_app, (filter_loads f n Hf).
  cbn [filter app]. rewrite Hf. reflexivity.
Qed.

(** ** The callbacks *)

(** C9. [uart_callback] decides by the sign of [error] alone: a negative
    [error] leaves [STATE_UART_ERROR] in the cell, zero and every positive
    [error] leave [STATE_UART_RX_DONE]; [data], [status] and [len] have no
    influence, and nothing but the cell changes. *)
Theorem C9_uart_callback_sign data error status len w :
  (error < 0 ->
   xmodem_io_rx_state (uart_callback data error status len w) = STATE_UART_ERROR) /\
  (0 <= error ->
   xmodem_io_rx_state (uart_callback data error status len w) = STATE_UART_RX_DONE) /\
  (forall data' status' len',
   uart_callback data' error status' len' w = uart_callback data error status len w) /\
  uart_callback data error status len w
    = set_rx_state (xmodem_io_rx_state (uart_callback data error status len w)) w.
Proof.
  unfold uart_callback.
  destruct (Z.ltb_spec error 0) as [H|H]; cbn;
    repeat split; intros; try lia; reflexivity.
Qed.

(** C2, as the code has it.  No callback stores [STATE_WAITING], so a cell
    that has left [STATE_WAITING] stays out of it whatever interrupts
    follow.  The callbacks do not look at the cell before they store:
    [rtc_callback] leaves [STATE_TIMEOUT] and [uart_callback] leaves
    [STATE_UART_ERROR] or [STATE_UART_RX_DONE] whatever the cell held, so
    the last handler served decides the value. *)
Theorem C2_callbacks_store_unguarded :
  (forall slot w,
     xmodem_io_rx_state w <> STATE_WAITING ->
     xmodem_io_rx_state (deliver slot w) <> STATE_WAITING) /\
  (forall data w, xmodem_io_rx_state (rtc_callback data w) = STATE_TIMEOUT) /\
  (forall data error status len w,
     xmodem_io_rx_state (uart_callback data error status len w)
       = (if error <? 0 then STATE_UART_ERROR else STATE_UART_RX_DONE)) /\
  (forall pre i w,
     xmodem_io_rx_state (deliver (pre ++ [i]) w) = irq_outcome i).
Proof using EIO_pos ETIME_pos.
  split; [exact deliver_keeps_terminal|].
  split; [reflexivity|].
  split.
  - intros data error status len w. unfold uart_callback.
    destruct (error <? 0); reflexivity.
  - intros pre i w. rewrite deliver_snoc. apply serve_state.
Qed.

(** ** The receive call *)

(** C1, as the code has it.  When the interrupt that ends the wait is a
    UART completion with a negative [error], the call returns
    [STATE_UART_ERROR], that is [-EIO], whatever the negative value was. *)
Theorem C1_line_error_returns_EIO w n pre rx error status len rest :
  error < 0 ->
  pending w = first_served n (pre ++ [irq_uart rx error status len]) rest ->
  exists w', xmodem_io_getc w = Some (- EIO, w').
Proof using EIO_pos ETIME_pos.
  intros He Hp.
  destruct (getc_run w n pre _ rest Hp) as (w' & H & _).
  exists w'. rewrite H. cbn [irq_outcome].
  destruct (Z.ltb_spec error 0); [reflexivity|lia].
Qed.

(** C3. A call stores through [ch] exactly once when it returns
    [STATE_UART_RX_DONE], and the octet stored is the transfer buffer
    [in_byte]: when the UART completion that ends the wait delivered [b]
    without error, the call returns [STATE_UART_RX_DONE] and leaves [b] in
    the caller's octet.  A call that returns anything else stores nothing
    through [ch] and leaves the caller's octet as it was. *)
Theorem C3_ch_stored_once_on_rx_done :
  (forall w n pre b error status len rest,
     0 <= error ->
     pending w = first_served n (pre ++ [irq_uart (Some b) error status len]) rest ->
     exists w', xmodem_io_getc w = Some (STATE_UART_RX_DONE, w') /\
                ch_target w' = b) /\
  (forall w retv w',
     xmodem_io_getc w = Some (retv, w') ->
     exists evs,
       trace w' = trace w ++ evs /\
       (retv = STATE_UART_RX_DONE ->
        filter is_ch_store evs = [Ev_ch_store (in_byte w')] /\
        ch_target w' = in_byte w') /\
       (retv <> STATE_UART_RX_DONE ->
        filter is_ch_store evs = [] /\ ch_target w' = ch_target w)).
Proof using EIO_pos ETIME_pos.
  split.
  - intros w n pre b error status len rest He Hp.
    destruct (getc_run w n pre _ rest Hp) as (w' & H & _ & Hb).
    cbn [irq_outcome] in H.
    destruct (Z.ltb_spec error 0); [lia|].
    exists w'; split; [exact H|].
    apply getc_inv in H. destruct H as (_ & _ & _ & _ & Hch & _).
    rewrite switch_retv_rx_done in Hch. rewrite Hch, Hb.
    cbn [serve]. unfold uart_callback. destruct (error <? 0); reflexivity.
  - intros w retv w' Hcall.
    destruct (getc_filter is_ch_store w retv w' (fun _ => eq_refl) Hcall)
      as (evs & Htr & Hf).
    exists evs; split; [exact Htr|].
    apply getc_inv in Hcall. destruct Hcall as (_ & _ & _ & _ & Hch & _).
    rewrite Hf. unfold switch_events in *. cbn [filter is_ch_store app].
    split.
    + intros ->. rewrite switch_retv_rx_done in *. auto.
    + intros Hne. destruct (switch_retv retv) eqn:Hsw; auto.
      apply switch_retv_rx_done_inv in Hsw. contradiction.
Qed.

(** C4. When the RTC alarm ends the wait the call returns
    [STATE_TIMEOUT], a negative status, and its last two actions are
    [qm_uart_irq_read_terminate] and the disarming [qm_rtc_set_config].
    A call that returns [STATE_TIMEOUT] has terminated the read once; a call
    that returns [STATE_UART_RX_DONE] or [STATE_UART_ERROR] never has. *)
Theorem C4_read_terminated_on_timeout_only :
  (forall w n pre rest,
     pending w = first_served n (pre ++ [irq_rtc]) rest ->
     exists w' evs,
       xmodem_io_getc w = Some (STATE_TIMEOUT, w') /\
       STATE_TIMEOUT < 0 /\
       trace w' = trace w ++ evs
         ++ [Ev_qm_uart_irq_read_terminate;
             Ev_qm_rtc_set_config (with_alarm_en false (rtc_cfg w))]) /\
  (forall w retv w',
     xmodem_io_getc w = Some (retv, w') ->
     exists evs,
       trace w' = trace w ++ evs /\
       (retv = STATE_TIMEOUT ->
        filter is_read_terminate evs = [Ev_qm_uart_irq_read_terminate]) /\
       (retv = STATE_UART_RX_DONE \/ retv = STATE_UART_ERROR ->
        filter is_read_terminate evs = [])).
Proof using EIO_pos ETIME_pos EIO_ETIME.
  split.
  - intros w n pre rest Hp.
    destruct (getc_run w n pre _ rest Hp) as (w' & H & _).
    cbn [irq_outcome] in H.
    pose proof (getc_inv _ _ _ H) as (_ & _ & _ & _ & _ & k & Htr).
    unfold switch_events in Htr. rewrite switch_retv_timeout in Htr.
    exists w'.
    exists ([Ev_qm_rtc_set_config (with_alarm_en true (rtc_cfg w));
             Ev_rx_state_store STATE_WAITING;
             Ev_qm_uart_irq_read]
            ++ repeat (Ev_rx_state_load STATE_WAITING) k
            ++ [Ev_rx_state_load STATE_TIMEOUT]).
    split; [exact H|]. split; [unfold STATE_TIMEOUT; lia|].
    rewrite Htr, <- !app_assoc. reflexivity.
  - intros w retv w' Hcall.
    destruct (getc_filter is_read_terminate w retv w' (fun _ => eq_refl) Hcall)
      as (evs & Htr & Hf).
    exists evs; split; [exact Htr|].
    rewrite Hf. unfold switch_events. cbn [filter is_read_terminate app].
    split.
    + intros ->. rewrite switch_retv_timeout. reflexivity.
    + intros [-> | ->].
      * rewrite switch_retv_rx_done. reflexivity.
      * rewrite switch_retv_uart_error. reflexivity.
Qed.

(** The loop entered with the cell at [STATE_WAITING] leaves at a slot
    that served an interrupt, with the value its last handler stored, after
    one read of [STATE_WAITING] for every slot before it. *)
Lemma wait_loop_served slots : forall w retv w',
  xmodem_io_rx_state w = STATE_WAITING ->
  wait_loop slots w = Some (retv, w') ->
  exists before pre i rest,
    slots = before ++ (pre ++ [i]) :: rest /\
    retv = irq_outcome i /\
    pending w' = rest /\
    trace w' = trace w
      ++ repeat (Ev_rx_state_load STATE_WAITING) (length before)
      ++ [Ev_rx_state_load retv].
Proof.
  induction slots as [|slot slots IH]; intros w retv w' Hw; cbn [wait_loop].
  - rewrite Hw, Z.eqb_refl. discriminate.
  - destruct (deliver_frame slot w) as (_ & _ & _ & Htr).
    cbn [xmodem_io_rx_state set_pending log].
    destruct (Z.eqb_spec (xmodem_io_rx_state (deliver slot w)) STATE_WAITING)
      as [E|E].
    + intros H. apply IH in H; [|exact E].
      destruct H as (before & pre & i & rest & -> & Hr & Hp & Ht).
      exists (slot :: before), pre, i, rest.
      split; [reflexivity|]. split; [exact Hr|]. split; [exact Hp|].
      rewrite Ht. cbn [trace log set_pending length repeat].
      rewrite Htr, E, <- app_assoc. reflexivity.
    + intros [= <- <-].
      destruct slot as [|i0 slot0].
      * exfalso. apply E. exact Hw.
      * destruct (exists_last (l := i0 :: slot0)) as (pre & i & Hs);
          [discriminate|].
        exists [], pre, i, slots. rewrite Hs.
        split; [reflexivity|]. split; [rewrite deliver_snoc; apply serve_state|].
        split; [reflexivity|].
        cbn [trace log set_pending length repeat app].
        destruct (deliver_frame (pre ++ [i]) w) as (_ & _ & _ & ->). reflexivity.
Qed.

(** C5. A returning call has handed the driver the configuration with
    the alarm enabled, then stored [STATE_WAITING] in the cell, then started
    the read, then read the cell once for every slot of the schedule up to
    the one that decided the call: each earlier read saw [STATE_WAITING],
    the last one saw the value that the last handler of that slot stored,
    and this value, not [STATE_WAITING], is returned; the cell is not read
    again afterwards.  Since the store precedes every read, the value the
    cell held on entry is never seen: with any other value in the cell on
    entry the call returns the same status and leaves the same world. *)
Theorem C5_arm_reset_read_poll w retv w' :
  xmodem_io_getc w = Some (retv, w') ->
  (exists before pre i rest tail,
     pending w = before ++ (pre ++ [i]) :: rest /\
     pending w' = rest /\
     retv = irq_outcome i /\
     trace w' = trace w
       ++ [Ev_qm_rtc_set_config
             (mk_rtc_config (init_val (rtc_cfg w)) true (alarm_val (rtc_cfg w))
                            (callback (rtc_cfg w)) (callback_data (rtc_cfg w)));
           Ev_rx_state_store STATE_WAITING;
           Ev_qm_uart_irq_read]
       ++ repeat (Ev_rx_state_load STATE_WAITING) (length before)
       ++ [Ev_rx_state_load retv]
       ++ tail /\
     filter is_rx_state_load tail = []) /\
  retv <> STATE_WAITING /\
  xmodem_io_rx_state w' = retv /\
  (forall stale,
     xmodem_io_getc
       (mk_world (in_byte w) (rtc_cfg w) stale (ch_target w) (pending w) (trace w))
     = Some (retv, w')).
Proof.
  intros Hcall.
  pose proof (getc_inv _ _ _ Hcall) as (Hn & _ & Hs & _ & _ & _).
  split; [|split; [exact Hn|split; [exact Hs|]]].
  - clear Hn Hs.
    unfold xmodem_io_getc, bind, assign_alarm_en, qm_rtc_set_config,
      store_rx_state, qm_uart_irq_read, busy_wait, modify in Hcall.
    set (w0 := log Ev_qm_uart_irq_read _) in Hcall.
    destruct (wait_loop (pending w0) w0) as [[r w1]|] eqn:Hloop; [|discriminate].
    apply wait_loop_served in Hloop; [|reflexivity].
    destruct Hloop as (before & pre & i & rest & Hp & Hr & Hp1 & Htr).
    assert (Ht0 : trace w0 = trace w
              ++ [Ev_qm_rtc_set_config
                    (mk_rtc_config (init_val (rtc_cfg w)) true (alarm_val (rtc_cfg w))
                                   (callback (rtc_cfg w)) (callback_data (rtc_cfg w)));
                  Ev_rx_state_store STATE_WAITING;
                  Ev_qm_uart_irq_read]).
    { unfold w0. cbn [trace log set_rx_state set_rtc_cfg rtc_cfg].
      rewrite <- !app_assoc. reflexivity. }
    exists before, pre, i, rest.
    destruct (switch_retv r) eqn:Hsw;
      unfold qm_uart_irq_read_terminate, store_ch_in_byte, ret, modify in Hcall;
      injection Hcall as <- <-.
    + exists [Ev_qm_uart_irq_read_terminate;
              Ev_qm_rtc_set_config (with_alarm_en false (rtc_cfg w1))].
      split; [exact Hp|]. split; [exact Hp1|]. split; [exact Hr|].
      split; [|reflexivity].
      cbn [trace log set_ch_target set_rtc_cfg rtc_cfg]. rewrite Htr, Ht0.
      rewrite <- !app_assoc. reflexivity.
    + exists [Ev_ch_store (in_byte w1);
              Ev_qm_rtc_set_config (with_alarm_en false (rtc_cfg w1))].
      split; [exact Hp|]. split; [exact Hp1|]. split; [exact Hr|].
      split; [|reflexivity].
      cbn [trace log set_ch_target set_rtc_cfg rtc_cfg]. rewrite Htr, Ht0.
      rewrite <- !app_assoc. reflexivity.
    + exists [Ev_qm_rtc_set_config (with_alarm_en false (rtc_cfg w1))].
      split; [exact Hp|]. split; [exact Hp1|]. split; [exact Hr|].
      split; [|reflexivity].
      cbn [trace log set_ch_target set_rtc_cfg rtc_cfg]. rewrite Htr, Ht0.
      rewrite <- !app_assoc. reflexivity.
  - intros stale. rewrite <- Hcall. reflexivity.
Qed.

(** C6, as the code has it.  A returning call has first armed the alarm,
    next stored [STATE_WAITING] in the cell, next started the read; it does
    not store to the cell again and starts no second read. *)
Theorem C6_reset_after_arm_before_read w retv w' :
  xmodem_io_getc w = Some (retv, w') ->
  exists tail,
    trace w' = trace w
      ++ Ev_qm_rtc_set_config (with_alarm_en true (rtc_cfg w))
      :: Ev_rx_state_store STATE_WAITING
      :: Ev_qm_uart_irq_read
      :: tail /\
    alarm_en (with_alarm_en true (rtc_cfg w)) = true /\
    filter is_rx_state_store tail = [] /\
    filter is_uart_irq_read tail = [].
Proof.
  intros Hcall.
  pose proof (getc_inv _ _ _ Hcall) as (_ & _ & _ & _ & _ & n & Htr).
  eexists. split; [exact Htr|]. split; [reflexivity|].
  unfold switch_events. rewrite !filter_app.
  rewrite !filter_loads by reflexivity.
  destruct (switch_retv retv); split; reflexivity.
Qed.

(** C7. Between calls the alarm is disabled.  A call first hands the
    driver the configuration with the alarm enabled and the alarm value
    [QM_RTC_ALARM_SECOND * 2]; whatever it returns, its last action hands
    the driver the same configuration with the alarm disabled, the driver is
    not configured in between, and [rtc_cfg] is left disabled. *)
Theorem C7_alarm_armed_then_disarmed w retv w' :
  reachable w ->
  xmodem_io_getc w = Some (retv, w') ->
  alarm_en (rtc_cfg w) = false /\
  (exists evs,
     trace w' = trace w
       ++ Ev_qm_rtc_set_config
            (mk_rtc_config 0 true (QM_RTC_ALARM_SECOND * 2) cb_rtc_callback 0)
       :: evs
       ++ [Ev_qm_rtc_set_config
            (mk_rtc_config 0 false (QM_RTC_ALARM_SECOND * 2) cb_rtc_callback 0)] /\
     filter is_rtc_set_config evs = []) /\
  rtc_cfg w' = rtc_cfg_init /\
  alarm_en (rtc_cfg w') = false.
Proof.
  intros Hr Hcall.
  pose proof (reachable_rtc_cfg _ (reach_getc _ _ _ Hr Hcall)) as Hcfg'.
  pose proof (reachable_rtc_cfg _ Hr) as Hcfg.
  pose proof (getc_inv _ _ _ Hcall) as (_ & _ & _ & _ & _ & n & Htr).
  rewrite Hcfg in Htr |- *. rewrite Hcfg'.
  split; [reflexivity|]. split; [|split; reflexivity].
  exists ([Ev_rx_state_store STATE_WAITING; Ev_qm_uart_irq_read]
            ++ repeat (Ev_rx_state_load STATE_WAITING) n
            ++ [Ev_rx_state_load retv]
            ++ switch_events retv (in_byte w')).
  split.
  - rewrite Htr. cbn [app with_alarm_en rtc_cfg_init init_val alarm_val callback
                       callback_data XMODEM_UART_TIMEOUT_S].
    rewrite <- !app_assoc. reflexivity.
  - unfold switch_events. rewrite !filter_app.
    cbn [filter is_rtc_set_config app].
    rewrite filter_loads by reflexivity.
    destruct (switch_retv retv); reflexivity.
Qed.

(** C8. The value a call returns is never [STATE_WAITING]: it is the
    value of the last read of the cell, the only read that did not see
    [STATE_WAITING], and it is one of the three pairwise distinct values
    [STATE_UART_RX_DONE], [STATE_UART_ERROR], [STATE_TIMEOUT]; the cell
    itself has left [STATE_WAITING] when the call returns.  The [default]
    label of the switch is reached with [STATE_UART_ERROR] only.  A call
    returns as soon as the schedule serves an interrupt. *)
Theorem C8_never_returns_waiting :
  (forall w retv w',
     xmodem_io_getc w = Some (retv, w') ->
     retv <> STATE_WAITING /\
     (retv = STATE_UART_RX_DONE \/ retv = STATE_UART_ERROR \/
      retv = STATE_TIMEOUT) /\
     xmodem_io_rx_state w' <> STATE_WAITING /\
     (exists head n tail,
        trace w' = trace w ++ head
          ++ repeat (Ev_rx_state_load STATE_WAITING) n
          ++ [Ev_rx_state_load retv]
          ++ tail /\
        filter is_rx_state_load head = [] /\
        filter is_rx_state_load tail = []) /\
     (switch_retv retv = case_default -> retv = STATE_UART_ERROR)) /\
  (STATE_UART_RX_DONE <> STATE_UART_ERROR /\
   STATE_UART_RX_DONE <> STATE_TIMEOUT /\
   STATE_UART_ERROR <> STATE_TIMEOUT) /\
  (forall w,
     (exists slot, In slot (pending w) /\ slot <> []) ->
     exists retv w', xmodem_io_getc w = Some (retv, w')).
Proof using EIO_pos ETIME_pos EIO_ETIME.
  split; [|split].
  - intros w retv w' Hcall.
    pose proof (getc_inv _ _ _ Hcall) as (Hn & Hv & Hs & _ & _ & n & Htr).
    split; [exact Hn|]. split; [tauto|]. split; [congruence|]. split.
    + exists [Ev_qm_rtc_set_config (with_alarm_en true (rtc_cfg w));
              Ev_rx_state_store STATE_WAITING;
              Ev_qm_uart_irq_read], n.
      eexists. split; [exact Htr|]. split; [reflexivity|].
      unfold switch_events. rewrite filter_app.
      destruct (switch_retv retv); reflexivity.
    + intros Hd. destruct Hv as [->|[->| ->]]; [reflexivity| |].
      * rewrite switch_retv_timeout in Hd. discriminate.
      * rewrite switch_retv_rx_done in Hd. discriminate.
  - unfold STATE_UART_RX_DONE, STATE_UART_ERROR, STATE_TIMEOUT. lia.
  - intros w Hex.
    destruct (first_nonempty_slot _ Hex) as (n & pre & i & rest & Hp).
    destruct (getc_run w n pre i rest Hp) as (w' & H & _).
    eauto.
Qed.

(** C10, as the code has it.  The status returned is the number of the
    enumerator read from the cell: [1] when a UART completion without error
    ended the wait, [-EIO] when a UART completion with a negative [error]
    did, [-ETIME] when the RTC alarm did.  No call returns [0]; a caller
    that takes [0] for success therefore takes every call for a failure,
    and is wrong exactly about the calls that received a byte. *)
Theorem C10_status_is_enum_value :
  (forall w n pre i rest,
     pending w = first_served n (pre ++ [i]) rest ->
     exists w',
       xmodem_io_getc w
         = Some (match i with
                 | irq_uart _ error _ _ => if error <? 0 then - EIO else 1
                 | irq_rtc => - ETIME
                 end, w')) /\
  (forall w retv w',
     xmodem_io_getc w = Some (retv, w') ->
     (retv = 1 \/ retv = - EIO \/ retv = - ETIME) /\
     retv <> 0 /\
     zero_test retv = false /\
     (misread_by_zero_test retv = true <-> retv = STATE_UART_RX_DONE)).
Proof using EIO_pos ETIME_pos.
  clear EIO_ETIME.
  split.
  - intros w n pre i rest Hp.
    destruct (getc_run w n pre i rest Hp) as (w' & H & _).
    exists w'. rewrite H. destruct i; reflexivity.
  - intros w retv w' Hcall.
    pose proof (getc_inv _ _ _ Hcall) as (_ & Hv & _).
    unfold STATE_UART_ERROR, STATE_TIMEOUT, STATE_UART_RX_DONE in Hv.
    assert (H0 : retv <> 0) by lia.
    assert (Hz : zero_test retv = false).
    { unfold zero_test. destruct (Z.eqb_spec retv 0); [contradiction|reflexivity]. }
    split; [tauto|]. split; [exact H0|]. split; [exact Hz|].
    unfold misread_by_zero_test. rewrite Hz.
    destruct (Z.eqb_spec retv STATE_UART_RX_DONE); cbn; split; congruence.
Qed.

(** ** Further properties of the receive call *)

Lemma all_idle_or_served (slots : list (list irq)) :
  (forall slot, In slot slots -> slot = []) \/
  (exists slot, In slot slots /\ slot <> []).
Proof.
  induction slots as [|s rest [IH|(slot & Hin & Hne)]].
  - left. intros slot [].
  - destruct s as [|i s].
    + left. intros slot [<-|Hin]; [reflexivity|apply IH, Hin].
    + right. exists (i :: s). split; [left; reflexivity|discriminate].
  - right. exists slot. split; [right; exact Hin|exact Hne].
Qed.

(** X1. The wait has no bound of its own: a call returns if and only if
    the schedule serves at least one interrupt.  With every slot empty the
    call spins in the loop for ever. *)
Theorem getc_returns_iff_interrupt_served w :
  (exists retv w', xmodem_io_getc w = Some (retv, w')) <->
  (exists slot, In slot (pending w) /\ slot <> []).
Proof using EIO_pos ETIME_pos.
  split.
  - intros (retv & w' & Hcall).
    destruct (all_idle_or_served (pending w)) as [Hidle|Hserved]; [|exact Hserved].
    rewrite (getc_spins w Hidle) in Hcall. discriminate.
  - intros Hex.
    destruct (first_nonempty_slot _ Hex) as (n & pre & i & rest & Hp).
    destruct (getc_run w n pre i rest Hp) as (w' & H & _).
    eauto.
Qed.

(** X2. A byte that completes in the same poll interval as the alarm, and
    before it, is lost: the call returns [STATE_TIMEOUT], the byte sits in
    [in_byte], the caller's octet is left as it was, and the schedule is
    consumed up to and including that slot. *)
Theorem getc_alarm_after_byte_drops_byte w n pre b error status len rest :
  pending w
    = first_served n (pre ++ [irq_uart (Some b) error status len; irq_rtc]) rest ->
  exists w',
    xmodem_io_getc w = Some (STATE_TIMEOUT, w') /\
    in_byte w' = b /\
    ch_target w' = ch_target w /\
    pending w' = rest.
Proof using EIO_pos ETIME_pos.
  intros Hp.
  change (pre ++ [irq_uart (Some b) error status len; irq_rtc])
    with (pre ++ [irq_uart (Some b) error status len] ++ [irq_rtc]) in Hp.
  rewrite app_assoc in Hp.
  destruct (getc_run w n _ _ rest Hp) as (w' & H & Hrest & Hb).
  cbn [irq_outcome] in H.
  exists w'. split; [exact H|].
  apply getc_inv in H. destruct H as (_ & _ & _ & _ & Hch & _).
  rewrite switch_retv_timeout in Hch.
  split; [|split; [exact Hch|exact Hrest]].
  rewrite Hb, deliver_snoc. cbn [serve rtc_callback].
  unfold uart_callback. destruct (error <? 0); reflexivity.
Qed.

(** X3. The sign of the status tells whether a byte was received: a
    returning call gives either a negative status, and then the caller's
    octet is untouched, or [STATE_UART_RX_DONE], and then the caller's octet
    holds [in_byte]. *)
Theorem getc_negative_iff_no_byte w retv w' :
  xmodem_io_getc w = Some (retv, w') ->
  (retv < 0 /\ ch_target w' = ch_target w) \/
  (retv = STATE_UART_RX_DONE /\ 0 < retv /\ ch_target w' = in_byte w').
Proof using EIO_pos ETIME_pos.
  clear EIO_ETIME.
  intros Hcall.
  pose proof (getc_inv _ _ _ Hcall) as (_ & Hv & _ & _ & Hch & _).
  destruct Hv as [->|[->| ->]].
  - left. split; [unfold STATE_UART_ERROR; lia|].
    destruct (switch_retv STATE_UART_ERROR) eqn:Hsw; try exact Hch.
    apply switch_retv_rx_done_inv in Hsw.
    unfold STATE_UART_ERROR, STATE_UART_RX_DONE in Hsw. lia.
  - left. split; [unfold STATE_TIMEOUT; lia|].
    rewrite switch_retv_timeout in Hch. exact Hch.
  - right. rewrite switch_retv_rx_done in Hch.
    split; [reflexivity|]. split; [reflexivity|exact Hch].
Qed.

(** X4. Calls compose along the schedule: a call returns at the first slot
    that serves an interrupt and leaves the later slots to the next call,
    whose status is decided by the next such slot alone, whatever the first
    call returned. *)
Theorem getc_twice w n1 pre1 i1 n2 pre2 i2 rest :
  pending w
    = first_served n1 (pre1 ++ [i1]) (first_served n2 (pre2 ++ [i2]) rest) ->
  exists w1 w2,
    xmodem_io_getc w = Some (irq_outcome i1, w1) /\
    xmodem_io_getc w1 = Some (irq_outcome i2, w2) /\
    pending w2 = rest.
Proof using EIO_pos ETIME_pos.
  intros Hp.
  destruct (getc_run w n1 pre1 i1 _ Hp) as (w1 & H1 & Hp1 & _).
  destruct (getc_run w1 n2 pre2 i2 rest Hp1) as (w2 & H2 & Hp2 & _).
  exists w1, w2. auto.
Qed.

End XmodemIo.

(** ** The model run on sample values *)

Abbreviation getc := (xmodem_io_getc EIO_newlib ETIME_newlib).
Abbreviation boot := (world_init ALARM_SECOND_32k).

Lemma EIO_newlib_pos : 0 < EIO_newlib.
Proof. reflexivity. Defined.

Lemma ETIME_newlib_pos : 0 < ETIME_newlib.
Proof. reflexivity. Defined.

Lemma EIO_ETIME_newlib : EIO_newlib <> ETIME_newlib.
Proof. discriminate. Defined.

(** Two calls in a row: the bytes 0x41 and 0x42 arrive in this order and
    are returned in this order. *)
Example two_bytes_in_a_row :
  option_map fst
    (bind getc (fun r1 => bind load_ch (fun c1 =>
     bind getc (fun r2 => bind load_ch (fun c2 =>
     ret [(r1, c1); (r2, c2)]))))
       (boot x00 [[]; [irq_uart (Some x41) 0 0 1]; [irq_uart (Some x42) 0 0 1]]))
  = Some [(1, x41); (1, x42)].
Proof. vm_compute. reflexivity. Qed.

(** A line error, idle polls before it. *)
Lemma C1_witness :
  exists w', getc (boot x00 [[]; []; [irq_uart None (-5) 0 0]]) = Some (-5, w').
Proof.
  apply (C1_line_error_returns_EIO EIO_newlib ETIME_newlib
           EIO_newlib_pos ETIME_newlib_pos
           (boot x00 [[]; []; [irq_uart None (-5) 0 0]])
           2 [] None (-5) 0 0 []).
  - reflexivity.
  - reflexivity.
Defined.

(** C1 as stated fails: the UART completion reports [-22] ([-EINVAL]), the
    call returns [-5] ([-EIO]). *)
Lemma C1_fault_code_not_passed_through :
  exists w',
    getc (boot x00 [[irq_uart None (-22) 0 0]]) = Some (-5, w') /\
    -5 <> -22.
Proof. eexists. cbv. split; [reflexivity|discriminate]. Qed.

(** The alarm served after a completed read decides the cell. *)
Lemma C2_witness :
  xmodem_io_rx_state
    (deliver EIO_newlib ETIME_newlib
       ([irq_uart (Some x41) 0 0 1] ++ [irq_rtc]) (boot x00 []))
  = irq_outcome EIO_newlib ETIME_newlib irq_rtc.
Proof.
  apply (C2_callbacks_store_unguarded EIO_newlib ETIME_newlib
           EIO_newlib_pos ETIME_newlib_pos).
Defined.

(** C2 as stated fails: [rtc_callback] overwrites the [STATE_UART_RX_DONE]
    that [uart_callback] stored, and a call in which the alarm is served
    right after the byte returns [-ETIME] and drops the byte. *)
Lemma C2_timeout_overwrites_rx_done :
  xmodem_io_rx_state (uart_callback EIO_newlib 0 0 0 1 (boot x00 [])) = 1 /\
  xmodem_io_rx_state
    (rtc_callback ETIME_newlib 0 (uart_callback EIO_newlib 0 0 0 1 (boot x00 [])))
  = -62 /\
  exists w',
    getc (boot x00 [[irq_uart (Some x41) 0 0 1; irq_rtc]]) = Some (-62, w') /\
    in_byte w' = x41 /\ ch_target w' = x00.
Proof.
  split; [reflexivity|]. split; [reflexivity|].
  eexists. cbv. repeat split.
Qed.

(** The byte 0x41 received before the alarm. *)
Lemma C3_witness :
  exists w',
    getc (boot x00 [[]; [irq_uart (Some x41) 0 0 1]; [irq_rtc]])
      = Some (STATE_UART_RX_DONE, w') /\
    ch_target w' = x41.
Proof.
  apply (proj1 (C3_ch_stored_once_on_rx_done EIO_newlib ETIME_newlib
                  EIO_newlib_pos ETIME_newlib_pos)
           (boot x00 [[]; [irq_uart (Some x41) 0 0 1]; [irq_rtc]])
           1%nat [] x41 0 0 1 [[irq_rtc]]).
  - discriminate.
  - reflexivity.
Defined.

(** The alarm with no byte before it. *)
Lemma C4_witness :
  exists w' evs,
    getc (boot x00 [[]; [irq_rtc]]) = Some (STATE_TIMEOUT ETIME_newlib, w') /\
    STATE_TIMEOUT ETIME_newlib < 0 /\
    trace w' = trace (boot x00 [[]; [irq_rtc]]) ++ evs
      ++ [Ev_qm_uart_irq_read_terminate;
          Ev_qm_rtc_set_config
            (with_alarm_en false (rtc_cfg (boot x00 [[]; [irq_rtc]])))].
Proof.
  apply (proj1 (C4_read_terminated_on_timeout_only EIO_newlib ETIME_newlib
                  EIO_newlib_pos ETIME_newlib_pos EIO_ETIME_newlib)
           (boot x00 [[]; [irq_rtc]]) 1%nat [] []).
  reflexivity.
Defined.

(** A call that finds a stale [STATE_TIMEOUT] in the cell, polls once
    with no interrupt served, and then receives a byte. *)
Lemma C5_witness :
  exists w',
    getc (mk_world x00 (rtc_cfg_init ALARM_SECOND_32k) (-62) x00
                   [[]; [irq_uart (Some x41) 0 0 1]] [])
      = Some (STATE_UART_RX_DONE, w') /\
    xmodem_io_rx_state w' = STATE_UART_RX_DONE /\
    forall stale,
      getc (mk_world x00 (rtc_cfg_init ALARM_SECOND_32k) stale x00
                     [[]; [irq_uart (Some x41) 0 0 1]] [])
        = Some (STATE_UART_RX_DONE, w').
Proof.
  eexists.
  assert (H : getc (mk_world x00 (rtc_cfg_init ALARM_SECOND_32k) (-62) x00
                             [[]; [irq_uart (Some x41) 0 0 1]] [])
              = Some (STATE_UART_RX_DONE, _)) by (cbv; reflexivity).
  split; [exact H|].
  apply (C5_arm_reset_read_poll EIO_newlib ETIME_newlib _ _ _ H).
Defined.

(** The first three actions of a call ended by the alarm. *)
Lemma C6_witness :
  exists retv w' tail,
    getc (boot x00 [[irq_rtc]]) = Some (retv, w') /\
    trace w' = trace (boot x00 [[irq_rtc]])
      ++ Ev_qm_rtc_set_config (with_alarm_en true (rtc_cfg (boot x00 [[irq_rtc]])))
      :: Ev_rx_state_store STATE_WAITING
      :: Ev_qm_uart_irq_read
      :: tail.
Proof.
  eexists. eexists.
  assert (H : getc (boot x00 [[irq_rtc]]) = Some (_, _)) by (cbv; reflexivity).
  destruct (C6_reset_after_arm_before_read EIO_newlib ETIME_newlib _ _ _ H)
    as (tail & Htr & _).
  exists tail. split; [exact H|exact Htr].
Defined.

(** C6 as stated fails: the first action of a call is the
    [qm_rtc_set_config] that arms the alarm, the store of [STATE_WAITING]
    is the second. *)
Lemma C6_alarm_armed_before_reset :
  option_map (fun r => firstn 2 (trace (snd r))) (getc (boot x00 [[irq_rtc]]))
  = Some [Ev_qm_rtc_set_config
            (mk_rtc_config 0 true (ALARM_SECOND_32k * 2) cb_rtc_callback 0);
          Ev_rx_state_store STATE_WAITING].
Proof. vm_compute. reflexivity. Qed.

(** The first call after start-up. *)
Lemma C7_witness :
  exists retv w',
    getc (boot x00 [[]; [irq_uart None (-5) 0 0]]) = Some (retv, w') /\
    alarm_en (rtc_cfg (boot x00 [[]; [irq_uart None (-5) 0 0]])) = false /\
    rtc_cfg w' = rtc_cfg_init ALARM_SECOND_32k /\
    alarm_en (rtc_cfg w') = false.
Proof.
  eexists. eexists.
  assert (H : getc (boot x00 [[]; [irq_uart None (-5) 0 0]]) = Some (_, _))
    by (cbv; reflexivity).
  destruct (C7_alarm_armed_then_disarmed EIO_newlib ETIME_newlib ALARM_SECOND_32k
              _ _ _ (reach_init _ _ _ x00 [[]; [irq_uart None (-5) 0 0]]) H)
    as (H1 & _ & H2 & H3).
  split; [exact H|]. split; [exact H1|]. split; [exact H2|exact H3].
Defined.

(** A schedule whose third slot serves an interrupt. *)
Lemma C8_witness :
  exists retv w', getc (boot x00 [[]; []; [irq_rtc]; []]) = Some (retv, w').
Proof.
  apply (C8_never_returns_waiting EIO_newlib ETIME_newlib
           EIO_newlib_pos ETIME_newlib_pos EIO_ETIME_newlib).
  exists [irq_rtc]. split; [cbn; auto|discriminate].
Defined.

(** The status of a call ended by the alarm. *)
Lemma C10_witness :
  exists w', getc (boot x00 [[]; [irq_rtc]]) = Some (-62, w').
Proof.
  apply (proj1 (C10_status_is_enum_value EIO_newlib ETIME_newlib
                  EIO_newlib_pos ETIME_newlib_pos)
           (boot x00 [[]; [irq_rtc]]) 1%nat [] irq_rtc []).
  reflexivity.
Defined.

(** C10 as stated fails for a call that received no byte: the call ended by
    the alarm returns [-62], the test against [0] says that no byte was
    received, and none was. *)
Lemma C10_zero_test_right_without_byte :
  option_map (fun r => (fst r, zero_test (fst r), misread_by_zero_test (fst r),
                        ch_target (snd r)))
    (getc (boot x00 [[irq_rtc]]))
  = Some (-62, false, false, x00).
Proof. vm_compute. reflexivity. Qed.

(** One idle poll, then the alarm. *)
Lemma getc_returns_iff_interrupt_served_witness :
  (exists retv w', getc (boot x00 [[]; [irq_rtc]]) = Some (retv, w')) <->
  (exists slot, In slot (pending (boot x00 [[]; [irq_rtc]])) /\ slot <> []).
Proof.
  apply (getc_returns_iff_interrupt_served EIO_newlib ETIME_newlib
           EIO_newlib_pos ETIME_newlib_pos).
Defined.

(** The byte 0x41 and the alarm in one poll interval. *)
Lemma getc_alarm_after_byte_drops_byte_witness :
  exists w',
    getc (boot x00 [[irq_uart (Some x41) 0 0 1; irq_rtc]; [irq_rtc]])
      = Some (STATE_TIMEOUT ETIME_newlib, w') /\
    in_byte w' = x41 /\
    ch_target w'
      = ch_target (boot x00 [[irq_uart (Some x41) 0 0 1; irq_rtc]; [irq_rtc]]) /\
    pending w' = [[irq_rtc]].
Proof.
  apply (getc_alarm_after_byte_drops_byte EIO_newlib ETIME_newlib
           EIO_newlib_pos ETIME_newlib_pos
           (boot x00 [[irq_uart (Some x41) 0 0 1; irq_rtc]; [irq_rtc]])
           0%nat [] x41 0 0 1 [[irq_rtc]]).
  reflexivity.
Defined.

(** A call ended by a line error. *)
Lemma getc_negative_iff_no_byte_witness :
  exists retv w',
    getc (boot x00 [[irq_uart None (-5) 0 0]]) = Some (retv, w') /\
    ((retv < 0 /\ ch_target w' = ch_target (boot x00 [[irq_uart None (-5) 0 0]])) \/
     (retv = STATE_UART_RX_DONE /\ 0 < retv /\ ch_target w' = in_byte w')).
Proof.
  eexists. eexists.
  assert (H : getc (boot x00 [[irq_uart None (-5) 0 0]]) = Some (_, _))
    by (cbv; reflexivity).
  split; [exact H|].
  apply (getc_negative_iff_no_byte EIO_newlib ETIME_newlib
           EIO_newlib_pos ETIME_newlib_pos _ _ _ H).
Defined.

(** A timeout, then the byte 0x42 received by the next call. *)
Lemma getc_twice_witness :
  exists w1 w2,
    getc (boot x00 [[]; [irq_rtc]; []; [irq_uart (Some x42) 0 0 1]])
      = Some (irq_outcome EIO_newlib ETIME_newlib irq_rtc, w1) /\
    getc w1
      = Some (irq_outcome EIO_newlib ETIME_newlib (irq_uart (Some x42) 0 0 1), w2) /\
    pending w2 = [].
Proof.
  apply (getc_twice EIO_newlib ETIME_newlib EIO_newlib_pos ETIME_newlib_pos
           (boot x00 [[]; [irq_rtc]; []; [irq_uart (Some x42) 0 0 1]])
           1%nat [] irq_rtc 1%nat [] (irq_uart (Some x42) 0 0 1) []).
  reflexivity.
Defined.

(** * Properties of the HDC1000 sensor example *)
Module Hdc1000Props.
Import Hdc1000.
Import Stdlib.Strings.String.

Section Props.

Variable bld : build.
Variable reply : list ext_call -> ext_call -> Z.

#[local] Abbreviation device_verify := (device_verify bld reply).
#[local] Abbreviation sensor_init := (sensor_init bld reply).
#[local] Abbreviation sensor_read_loop := (sensor_read_loop reply).
#[local] Abbreviation sensor_read := (sensor_read bld reply).
#[local] Abbreviation bus_i2c_init := (bus_i2c_init bld).
#[local] Abbreviation main := (main bld reply).
#[local] Abbreviation id_reads := (id_reads bld).
#[local] Abbreviation all_succeed := (all_succeed reply).

Lemma QM_CHECK_pass cond error (rest : M Z) :
  QM_CHECK_enabled bld = false \/ cond = true ->
  QM_CHECK bld cond error rest = rest.
Proof.
  unfold QM_CHECK. intros [-> | ->]; [reflexivity|].
  rewrite Bool.andb_false_r. reflexivity.
Qed.

Lemma QM_CHECK_fail cond error (rest : M Z) :
  QM_CHECK_enabled bld = true -> cond = false ->
  QM_CHECK bld cond error rest = ret error.
Proof. unfold QM_CHECK. intros -> ->. reflexivity. Qed.

Lemma all_succeed_app cs1 : forall h cs2,
  all_succeed h (cs1 ++ cs2) = all_succeed h cs1 && all_succeed (h ++ cs1) cs2.
Proof.
  induction cs1 as [|c cs1 IH]; intros h cs2; cbn [app Hdc1000.all_succeed].
  - rewrite app_nil_r. reflexivity.
  - rewrite IH, <- app_assoc, Bool.andb_assoc. reflexivity.
Qed.

(** What the callers of [device_verify] need to know of it. *)
Lemma device_verify_summary h :
  exists st evs,
    device_verify h = Some (st, h ++ evs) /\
    filter is_configure evs = [] /\
    filter is_get_sensor_data evs = [] /\
    (st = 0 -> evs = id_reads /\ all_succeed h id_reads = true) /\
    (st <> 0 ->
     all_succeed h id_reads = false /\
     filter is_printf evs <> [] /\
     exists k, filter is_hdc1000_call evs = firstn k id_reads) /\
    (exists tl,
       evs = Call_dev_hdc1000_read_id (HDC1000_ID_MANUFACTURER bld) :: tl).
Proof.
  unfold Hdc1000.device_verify, Hdc1000.id_reads, bind, call, call_, ret.
  cbn [Hdc1000.all_succeed].
  destruct (Z.eqb_spec (reply h (Call_dev_hdc1000_read_id (HDC1000_ID_MANUFACTURER bld))) 0)
    as [E1|E1]; cbn [negb andb].
  2:{ do 2 eexists. split; [rewrite <- app_assoc; reflexivity|].
      repeat split; try contradiction; try discriminate;
        [exists 1%nat; reflexivity|eexists; reflexivity]. }
  destruct (Z.eqb_spec (reply (h ++ [Call_dev_hdc1000_read_id (HDC1000_ID_MANUFACTURER bld)])
                          (Call_dev_hdc1000_read_id (HDC1000_ID_DEVICE bld))) 0)
    as [E2|E2]; cbn [negb andb].
  2:{ do 2 eexists. split; [rewrite <- !app_assoc; reflexivity|].
      repeat split; try contradiction; try discriminate;
        [exists 2%nat; reflexivity|eexists; reflexivity]. }
  destruct (Z.eqb_spec
              (reply ((h ++ [Call_dev_hdc1000_read_id (HDC1000_ID_MANUFACTURER bld)])
                        ++ [Call_dev_hdc1000_read_id (HDC1000_ID_DEVICE bld)])
                     (Call_dev_hdc1000_read_id (HDC1000_ID_SERIAL bld))) 0)
    as [E3|E3]; cbn [negb andb];
    rewrite <- app_assoc in E3 |- *; cbn [app] in E3 |- *.
  2:{ do 2 eexists. split; [rewrite <- !app_assoc; reflexivity|].
      repeat split; try contradiction; try discriminate;
        [exists 3%nat; reflexivity|eexists; reflexivity]. }
  do 2 eexists. split; [rewrite <- !app_assoc; reflexivity|].
  cbn [app]. rewrite E3.
  split; [reflexivity|]. split; [reflexivity|].
  split; [intros _; split; reflexivity|].
  split; [|eexists; reflexivity].
  intros Hne. exfalso. apply Hne. reflexivity.
Qed.

(** X5. [device_verify] always returns.  It returns [0] exactly when the
    three identifier reads, manufacturer, device, serial, are all answered
    with [0], and has then made these three calls and nothing else.
    Otherwise it returns the status of the first read that failed, makes no
    read after it, and prints one error line carrying that status. *)
Theorem device_verify_first_failure h :
  exists st evs,
    device_verify h = Some (st, h ++ evs) /\
    (st = 0 <-> all_succeed h id_reads = true) /\
    (st = 0 -> evs = id_reads) /\
    (st <> 0 ->
     exists k fmt,
       (k < 3)%nat /\
       evs = firstn (S k) id_reads ++ [Call_QM_PRINTF fmt "device_verify" st] /\
       all_succeed h (firstn k id_reads) = true /\
       nth_error (map (reply (h ++ firstn k id_reads)) id_reads) k = Some st).
Proof.
  unfold Hdc1000.device_verify, Hdc1000.id_reads, bind, call, call_, ret.
  cbn [all_succeed Hdc1000.all_succeed].
  destruct (Z.eqb_spec (reply h (Call_dev_hdc1000_read_id (HDC1000_ID_MANUFACTURER bld))) 0)
    as [E1|E1]; cbn [negb andb].
  2:{ do 2 eexists. split; [rewrite <- app_assoc; reflexivity|].
      split; [split; [contradiction|discriminate]|].
      split; [contradiction|]. intros _.
      exists 0%nat. eexists. split; [lia|]. split; [reflexivity|].
      split; [reflexivity|]. cbn. rewrite app_nil_r. reflexivity. }
  destruct (Z.eqb_spec (reply (h ++ [Call_dev_hdc1000_read_id (HDC1000_ID_MANUFACTURER bld)])
                          (Call_dev_hdc1000_read_id (HDC1000_ID_DEVICE bld))) 0)
    as [E2|E2]; cbn [negb andb].
  2:{ do 2 eexists. split; [rewrite <- !app_assoc; reflexivity|].
      split; [split; [contradiction|discriminate]|].
      split; [contradiction|]. intros _.
      exists 1%nat. eexists. split; [lia|]. split; [reflexivity|].
      split; [cbn; rewrite E1; reflexivity|]. reflexivity. }
  destruct (Z.eqb_spec
              (reply ((h ++ [Call_dev_hdc1000_read_id (HDC1000_ID_MANUFACTURER bld)])
                        ++ [Call_dev_hdc1000_read_id (HDC1000_ID_DEVICE bld)])
                     (Call_dev_hdc1000_read_id (HDC1000_ID_SERIAL bld))) 0)
    as [E3|E3]; cbn [negb andb].
  2:{ rewrite <- app_assoc in E3 |- *. cbn [app] in E3 |- *.
      do 2 eexists. split; [rewrite <- !app_assoc; reflexivity|].
      split; [split; [contradiction|discriminate]|].
      split; [contradiction|]. intros _.
      exists 2%nat. eexists. split; [lia|]. split; [reflexivity|].
      split; [cbn; rewrite E1, E2; reflexivity|]. reflexivity. }
  rewrite <- app_assoc in E3 |- *. cbn [app] in E3 |- *.
  do 2 eexists. split; [rewrite <- !app_assoc; reflexivity|].
  cbn [app]. rewrite E3. split; [tauto|]. split; [reflexivity|].
  intros Hne. exfalso. apply Hne. reflexivity.
Qed.

Lemma sensor_init_rejects_range m r b s h :
  QM_CHECK_enabled bld = true ->
  HDC1000_MEASUREMENT_MODE_COMBINED bld < m \/
  HDC1000_RESOLUTION_14BIT bld < r \/
  HDC1000_BATTERY_STATUS_LOW_INDICATION_DISABLE bld < b \/
  HDC1000_DO_SOFT_RESET bld < s ->
  sensor_init m r b s h = Some (- EINVAL bld, h).
Proof.
  intros Hen Hbad. unfold Hdc1000.sensor_init, QM_CHECK. rewrite Hen.
  cbn [andb].
  destruct (Z.leb_spec m (HDC1000_MEASUREMENT_MODE_COMBINED bld)); [|reflexivity].
  destruct (Z.leb_spec r (HDC1000_RESOLUTION_14BIT bld)); [|reflexivity].
  destruct (Z.leb_spec b (HDC1000_BATTERY_STATUS_LOW_INDICATION_DISABLE bld));
    [|reflexivity].
  destruct (Z.leb_spec s (HDC1000_DO_SOFT_RESET bld)); [|reflexivity].
  lia.
Qed.

(** What [sensor_init] does past its parameter checks. *)
Lemma sensor_init_body m r b s h :
  QM_CHECK_enabled bld = false \/
  (m <= HDC1000_MEASUREMENT_MODE_COMBINED bld /\
   r <= HDC1000_RESOLUTION_14BIT bld /\
   b <= HDC1000_BATTERY_STATUS_LOW_INDICATION_DISABLE bld /\
   s <= HDC1000_DO_SOFT_RESET bld) ->
  exists st evs,
    sensor_init m r b s h = Some (st, h ++ evs) /\
    filter is_get_sensor_data evs = [] /\
    (st = 0 ->
     evs = id_reads ++ [Call_dev_hdc1000_configure m r b s] /\
     all_succeed h (id_reads ++ [Call_dev_hdc1000_configure m r b s]) = true) /\
    (st <> 0 ->
     all_succeed h (id_reads ++ [Call_dev_hdc1000_configure m r b s]) = false /\
     (exists fmt pre, evs = pre ++ [Call_QM_PRINTF fmt "sensor_init" st]) /\
     (filter is_configure evs = [] \/
      all_succeed h id_reads = true /\
      filter is_hdc1000_call evs
        = id_reads ++ [Call_dev_hdc1000_configure m r b s])) /\
    (exists tl,
       evs = Call_dev_hdc1000_read_id (HDC1000_ID_MANUFACTURER bld) :: tl).
Proof.
  intros Hok. unfold Hdc1000.sensor_init.
  rewrite !QM_CHECK_pass
    by (destruct Hok as [Hoff|(H1 & H2 & H3 & H4)];
        [left; exact Hoff|right; apply Z.leb_le; assumption]).
  unfold bind at 1.
  destruct (device_verify_summary h)
    as (v & evs1 & Hv & Hc1 & Hg1 & Hz & Hnz & Hfirst).
  rewrite Hv, all_succeed_app.
  destruct (Z.eqb_spec v 0) as [E|E]; cbn [negb].
  - destruct (Hz E) as (-> & Hall). rewrite Hall.
    cbn [andb Hdc1000.all_succeed].
    unfold bind, call, call_, ret.
    destruct (Z.eqb_spec (reply (h ++ id_reads) (Call_dev_hdc1000_configure m r b s)) 0)
      as [E2|E2]; cbn [negb andb].
    + do 2 eexists. split; [rewrite <- app_assoc; reflexivity|].
      rewrite E2. split; [reflexivity|].
      split; [intros _; split; reflexivity|].
      split; [|eexists; reflexivity].
      intros Hne. exfalso. apply Hne. reflexivity.
    + do 2 eexists. split; [rewrite <- !app_assoc; reflexivity|].
      split; [reflexivity|]. split; [contradiction|].
      split; [|eexists; reflexivity]. intros _.
      split; [reflexivity|]. split.
      * exists "Error: %s() Config failed %d\n"%string,
          (id_reads ++ [Call_dev_hdc1000_configure m r b s]).
        rewrite <- app_assoc. reflexivity.
      * right. split; reflexivity.
  - destruct (Hnz E) as (Hall & _ & _). rewrite Hall. cbn [andb].
    unfold bind, call_, ret.
    do 2 eexists. split; [rewrite <- app_assoc; reflexivity|].
    rewrite !filter_app, Hc1, Hg1.
    split; [reflexivity|]. split; [contradiction|].
    split; [|destruct Hfirst as (tl & ->); eexists; reflexivity]. intros _.
    split; [reflexivity|]. split; [eauto|]. left. reflexivity.
Qed.

(** X6. With parameter checks compiled in, [sensor_init] turns down an
    argument above the last enumerator of its type with [-EINVAL] before any
    call leaves the function, and turns down nothing else: with the four
    arguments in range its first action is the manufacturer identifier
    read. *)
Theorem sensor_init_rejects_out_of_range m r b s h :
  QM_CHECK_enabled bld = true ->
  (HDC1000_MEASUREMENT_MODE_COMBINED bld < m \/
   HDC1000_RESOLUTION_14BIT bld < r \/
   HDC1000_BATTERY_STATUS_LOW_INDICATION_DISABLE bld < b \/
   HDC1000_DO_SOFT_RESET bld < s ->
   sensor_init m r b s h = Some (- EINVAL bld, h)) /\
  (m <= HDC1000_MEASUREMENT_MODE_COMBINED bld /\
   r <= HDC1000_RESOLUTION_14BIT bld /\
   b <= HDC1000_BATTERY_STATUS_LOW_INDICATION_DISABLE bld /\
   s <= HDC1000_DO_SOFT_RESET bld ->
   exists st tl,
     sensor_init m r b s h
       = Some (st, h ++ Call_dev_hdc1000_read_id (HDC1000_ID_MANUFACTURER bld) :: tl)).
Proof.
  intros Hen. split.
  - apply sensor_init_rejects_range, Hen.
  - intros Hin.
    destruct (sensor_init_body m r b s h (or_intror Hin))
      as (st & evs & Hrun & _ & _ & _ & tl & ->).
    exists st, tl. exact Hrun.
Qed.

(** X7. [sensor_init] always returns, and it configures the sensor only
    after the three identifier reads were all answered with [0]: either the
    function has not called [dev_hdc1000_configure] at all, or its HDC1000
    calls are the three identifier reads followed by one configure call
    carrying the four arguments unchanged. *)
Theorem sensor_init_configures_only_verified m r b s h :
  exists st evs,
    sensor_init m r b s h = Some (st, h ++ evs) /\
    (filter is_configure evs = [] \/
     all_succeed h id_reads = true /\
     filter is_hdc1000_call evs
       = id_reads ++ [Call_dev_hdc1000_configure m r b s]).
Proof.
  destruct (QM_CHECK_enabled bld) eqn:Hen.
  - destruct (Z.leb_spec m (HDC1000_MEASUREMENT_MODE_COMBINED bld)) as [H1|H1].
    destruct (Z.leb_spec r (HDC1000_RESOLUTION_14BIT bld)) as [H2|H2].
    destruct (Z.leb_spec b (HDC1000_BATTERY_STATUS_LOW_INDICATION_DISABLE bld))
      as [H3|H3].
    destruct (Z.leb_spec s (HDC1000_DO_SOFT_RESET bld)) as [H4|H4].
    + destruct (sensor_init_body m r b s h) as (st & evs & Hrun & _ & Hz & Hnz & _);
        [right; auto|].
      exists st, evs. split; [exact Hrun|].
      destruct (Z.eq_dec st 0) as [E|E].
      * destruct (Hz E) as (-> & Hall). right.
        rewrite all_succeed_app in Hall. apply Bool.andb_true_iff in Hall.
        split; [apply Hall|reflexivity].
      * apply (Hnz E).
    + exists (- EINVAL bld), []. rewrite app_nil_r.
      split; [apply sensor_init_rejects_range; auto|left; reflexivity].
    + exists (- EINVAL bld), []. rewrite app_nil_r.
      split; [apply sensor_init_rejects_range; auto|left; reflexivity].
    + exists (- EINVAL bld), []. rewrite app_nil_r.
      split; [apply sensor_init_rejects_range; auto|left; reflexivity].
    + exists (- EINVAL bld), []. rewrite app_nil_r.
      split; [apply sensor_init_rejects_range; auto|left; reflexivity].
  - destruct (sensor_init_body m r b s h) as (st & evs & Hrun & _ & Hz & Hnz & _);
      [left; exact Hen|].
    exists st, evs. split; [exact Hrun|].
    destruct (Z.eq_dec st 0) as [E|E].
    + destruct (Hz E) as (-> & Hall). right.
      rewrite all_succeed_app in Hall. apply Bool.andb_true_iff in Hall.
      split; [apply Hall|reflexivity].
    + apply (Hnz E).
Qed.

(** X8. Past its parameter checks, [sensor_init] returns [0] exactly when
    the three identifier reads and the configure call are all answered with
    [0], and has then made these four calls and nothing else; a status other
    than [0] is reported in a last error line of [sensor_init]. *)
Theorem sensor_init_succeeds_iff m r b s h :
  QM_CHECK_enabled bld = false \/
  (m <= HDC1000_MEASUREMENT_MODE_COMBINED bld /\
   r <= HDC1000_RESOLUTION_14BIT bld /\
   b <= HDC1000_BATTERY_STATUS_LOW_INDICATION_DISABLE bld /\
   s <= HDC1000_DO_SOFT_RESET bld) ->
  exists st evs,
    sensor_init m r b s h = Some (st, h ++ evs) /\
    (st = 0 <->
     all_succeed h (id_reads ++ [Call_dev_hdc1000_configure m r b s]) = true) /\
    (st = 0 -> evs = id_reads ++ [Call_dev_hdc1000_configure m r b s]) /\
    (st <> 0 ->
     exists fmt pre, evs = pre ++ [Call_QM_PRINTF fmt "sensor_init" st]).
Proof.
  intros Hok.
  destruct (sensor_init_body m r b s h Hok) as (st & evs & Hrun & _ & Hz & Hnz & _).
  exists st, evs. split; [exact Hrun|]. split; [|split].
  - split; [intros E; apply (Hz E)|].
    intros Hall. destruct (Z.eq_dec st 0) as [E|E]; [exact E|].
    destruct (Hnz E) as (Hf & _). congruence.
  - intros E; apply (Hz E).
  - intros E; apply (Hnz E).
Qed.

Lemma int_wrap_small z :
  -2147483648 <= z < 2147483648 -> int_wrap z = z.
Proof. intros Hz. unfold int_wrap. rewrite Z.mod_small; lia. Qed.

Lemma good_rounds_S k p m :
  good_rounds (S k) p m = good_round p m ++ good_rounds k p m.
Proof. reflexivity. Qed.

Lemma filter_good_rounds (f : ext_call -> bool) k p m :
  filter f (good_rounds k p m)
    = List.concat (List.repeat (filter f (good_round p m)) k).
Proof.
  induction k as [|k IH]; [reflexivity|].
  rewrite good_rounds_S, filter_app, IH. reflexivity.
Qed.

(** The loop entered with a positive count [n + 1]: it leaves after at most
    [n + 1] passes, with [0] after exactly that many good passes, or with
    the status of the first read that failed. *)
Lemma sensor_read_loop_runs p m : forall n fuel h,
  (n <= fuel)%nat ->
  Z.of_nat (S n) < 2147483648 ->
  exists st k,
    sensor_read_loop (S fuel) p m (Z.of_nat (S n)) h
      = Some (st, h ++ good_rounds k p m
                   ++ (if st =? 0 then [] else failed_round p m st)) /\
    (forall j, (j < k)%nat ->
       reply (h ++ good_rounds j p m) (Call_dev_hdc1000_get_sensor_data m p) = 0) /\
    (st = 0 -> k = S n) /\
    (st <> 0 ->
     (k <= n)%nat /\
     reply (h ++ good_rounds k p m) (Call_dev_hdc1000_get_sensor_data m p) = st).
Proof.
  induction n as [|n IH]; intros fuel h Hfuel Hint;
    cbn [Hdc1000.sensor_read_loop]; unfold bind at 1; unfold call at 1;
    (destruct (Z.eqb_spec (reply h (Call_dev_hdc1000_get_sensor_data m p)) 0)
       as [E|E]; cbn [negb];
     [|exists (reply h (Call_dev_hdc1000_get_sensor_data m p)), 0%nat;
       unfold bind, call_, ret;
       destruct (Z.eqb_spec (reply h (Call_dev_hdc1000_get_sensor_data m p)) 0);
       [contradiction|];
       split; [rewrite <- app_assoc; reflexivity|];
       split; [intros j Hj; lia|];
       split; [contradiction|];
       intros _; split; [lia|]; cbn [good_rounds]; unfold good_rounds;
       cbn [List.repeat List.concat]; rewrite app_nil_r; reflexivity]).
  - unfold bind, call_, ret.
    change (int_wrap (Z.of_nat 1 - 1)) with 0. cbn [Z.eqb negb].
    exists (reply h (Call_dev_hdc1000_get_sensor_data m p)), 1%nat.
    rewrite E. cbn [Z.eqb].
    split; [rewrite <- !app_assoc; reflexivity|].
    split.
    + intros j Hj. assert (j = 0%nat) as -> by lia.
      unfold good_rounds. cbn [List.repeat List.concat]. rewrite app_nil_r. exact E.
    + split; [reflexivity|]. intros Hne. exfalso. apply Hne. reflexivity.
  - unfold bind at 1. unfold call_ at 1. unfold bind at 1. unfold call_ at 1.
    assert (Hw : int_wrap (Z.of_nat (S (S n)) - 1) = Z.of_nat (S n)).
    { rewrite int_wrap_small; lia. }
    rewrite Hw.
    destruct (Z.eqb_spec (Z.of_nat (S n)) 0) as [E0|_]; [lia|]. cbn [negb].
    destruct fuel as [|fuel]; [lia|].
    destruct (IH fuel (((h ++ [Call_dev_hdc1000_get_sensor_data m p])
                          ++ [Call_dev_hdc1000_print_sensor_data m p])
                         ++ [Call_clk_sys_udelay SENSOR_READ_INTERVAL]))
      as (st & k & Hrun & Hgood & Hz & Hnz); [lia|lia|].
    assert (Hh : forall j,
               (((h ++ [Call_dev_hdc1000_get_sensor_data m p])
                   ++ [Call_dev_hdc1000_print_sensor_data m p])
                  ++ [Call_clk_sys_udelay SENSOR_READ_INTERVAL]) ++ good_rounds j p m
               = h ++ good_rounds (S j) p m).
    { intros j. rewrite good_rounds_S, <- !app_assoc. reflexivity. }
    exists st, (S k). split; [|split; [|split]].
    + rewrite Hrun, app_assoc, Hh, <- app_assoc. reflexivity.
    + intros [|j] Hj.
      * unfold good_rounds. cbn [List.repeat List.concat]. rewrite app_nil_r. exact E.
      * rewrite <- Hh. apply Hgood. lia.
    + intros Hst. rewrite (Hz Hst). reflexivity.
    + intros Hst. destruct (Hnz Hst) as (Hk & Hr).
      split; [lia|]. rewrite <- Hh. exact Hr.
Qed.

(** X9. Past its parameter checks and with a positive [loop_count],
    [sensor_read] returns after at most [loop_count] passes.  It returns [0]
    after exactly [loop_count] passes that each read, printed and waited
    three seconds, and does so exactly when all these reads are answered
    with [0]; otherwise it returns the status of the first read that failed,
    after the good passes before it, the failed read and one error line. *)
Theorem sensor_read_rounds fuel p m loop_count h :
  QM_CHECK_enabled bld = false \/
  (p <> NULL /\ m <= HDC1000_MEASUREMENT_MODE_COMBINED bld) ->
  1 <= loop_count < 2147483648 ->
  (Z.to_nat loop_count <= fuel)%nat ->
  exists st k,
    sensor_read fuel p m loop_count h
      = Some (st, h ++ good_rounds k p m
                   ++ (if st =? 0 then [] else failed_round p m st)) /\
    (st = 0 <->
     forall j, (j < Z.to_nat loop_count)%nat ->
       reply (h ++ good_rounds j p m) (Call_dev_hdc1000_get_sensor_data m p) = 0) /\
    (st = 0 -> Z.of_nat k = loop_count) /\
    (st <> 0 ->
     Z.of_nat k < loop_count /\
     (forall j, (j < k)%nat ->
        reply (h ++ good_rounds j p m) (Call_dev_hdc1000_get_sensor_data m p) = 0) /\
     reply (h ++ good_rounds k p m) (Call_dev_hdc1000_get_sensor_data m p) = st).
Proof.
  intros Hok Hcount Hfuel. unfold Hdc1000.sensor_read.
  rewrite !QM_CHECK_pass.
  2:{ destruct Hok as [Hoff|(_ & Hm)]; [left; exact Hoff|].
      right. apply Z.leb_le. exact Hm. }
  2:{ destruct Hok as [Hoff|(Hp & _)]; [left; exact Hoff|].
      right. destruct (Z.eqb_spec NULL p); [congruence|reflexivity]. }
  destruct (Z.to_nat loop_count) as [|n] eqn:En; [lia|].
  destruct fuel as [|fuel]; [lia|].
  assert (Hc : loop_count = Z.of_nat (S n)) by lia.
  destruct (sensor_read_loop_runs p m n fuel h) as (st & k & Hrun & Hgood & Hz & Hnz);
    [lia|lia|].
  exists st, k. rewrite Hc. split; [exact Hrun|]. split; [|split].
  - split.
    + intros Hst j Hj. apply Hgood. rewrite (Hz Hst). exact Hj.
    + intros Hall. destruct (Z.eq_dec st 0) as [E|E]; [exact E|].
      destruct (Hnz E) as (Hk & Hr). rewrite Hall in Hr by lia. congruence.
  - intros Hst. rewrite (Hz Hst). reflexivity.
  - intros Hst. destruct (Hnz Hst) as (Hk & Hr).
    split; [lia|]. split; [exact Hgood|exact Hr].
Qed.

Lemma sensor_read_pass fuel p m loop_count :
  QM_CHECK_enabled bld = false \/
  (p <> NULL /\ m <= HDC1000_MEASUREMENT_MODE_COMBINED bld) ->
  sensor_read fuel p m loop_count = sensor_read_loop fuel p m loop_count.
Proof.
  intros Hok. unfold Hdc1000.sensor_read. rewrite !QM_CHECK_pass.
  - reflexivity.
  - destruct Hok as [Hoff|(_ & Hm)]; [left; exact Hoff|].
    right. apply Z.leb_le. exact Hm.
  - destruct Hok as [Hoff|(Hp & _)]; [left; exact Hoff|].
    right. destruct (Z.eqb_spec NULL p); [congruence|reflexivity].
Qed.

Lemma sensor_read_rejects_args fuel p m loop_count h :
  QM_CHECK_enabled bld = true ->
  p = NULL \/ HDC1000_MEASUREMENT_MODE_COMBINED bld < m ->
  sensor_read fuel p m loop_count h = Some (- EINVAL bld, h).
Proof.
  intros Hen Hbad. unfold Hdc1000.sensor_read, QM_CHECK. rewrite Hen. cbn [andb].
  destruct (Z.eqb_spec NULL p) as [_|Hp]; cbn [negb]; [reflexivity|].
  destruct (Z.leb_spec m (HDC1000_MEASUREMENT_MODE_COMBINED bld)); cbn [negb];
    [|reflexivity].
  destruct Hbad; [congruence|lia].
Qed.

(** The loop only adds to the history, and whenever it leaves it has read
    the sensor at least once. *)
Lemma sensor_read_loop_extends p m : forall fuel loop_count h st h',
  sensor_read_loop fuel p m loop_count h = Some (st, h') ->
  exists tl, h' = h ++ Call_dev_hdc1000_get_sensor_data m p :: tl.
Proof.
  induction fuel as [|fuel IH]; intros loop_count h st h';
    cbn [Hdc1000.sensor_read_loop]; [discriminate|].
  unfold bind at 1. unfold call at 1.
  destruct (negb (reply h (Call_dev_hdc1000_get_sensor_data m p) =? 0)).
  - unfold bind, call_, ret. intros [= <- <-].
    eexists. rewrite <- app_assoc. reflexivity.
  - unfold bind at 1. unfold call_ at 1. unfold bind at 1. unfold call_ at 1.
    destruct (negb (int_wrap (loop_count - 1) =? 0)).
    + intros H. apply IH in H. destruct H as (tl & ->).
      eexists. rewrite <- !app_assoc. reflexivity.
    + unfold ret. intros [= <- <-].
      eexists. rewrite <- !app_assoc. reflexivity.
Qed.

(** X10. With parameter checks compiled in, [sensor_read] turns down a
    NULL pointer or a mode above the last enumerator with [-EINVAL] before
    any call, whatever [loop_count] is.  Past the checks the body of the
    loop runs before [loop_count] is looked at: whenever [sensor_read]
    returns, also for a [loop_count] of zero or below, it has read the
    sensor at least once. *)
Theorem sensor_read_rejects_or_reads_once fuel p m loop_count h :
  QM_CHECK_enabled bld = true ->
  (p = NULL \/ HDC1000_MEASUREMENT_MODE_COMBINED bld < m ->
   sensor_read fuel p m loop_count h = Some (- EINVAL bld, h)) /\
  (p <> NULL /\ m <= HDC1000_MEASUREMENT_MODE_COMBINED bld ->
   forall st h',
     sensor_read fuel p m loop_count h = Some (st, h') ->
     exists tl, h' = h ++ Call_dev_hdc1000_get_sensor_data m p :: tl).
Proof.
  intros Hen. split.
  - apply sensor_read_rejects_args, Hen.
  - intros Hin st h'. rewrite sensor_read_pass by (right; exact Hin).
    apply sensor_read_loop_extends.
Qed.

Lemma sensor_read_loop_nonpositive_fails p m : forall k fuel loop_count h st,
  -2147483648 <= loop_count <= 0 ->
  Z.of_nat k <= loop_count + 2147483648 ->
  (k < fuel)%nat ->
  (forall j, (j < k)%nat ->
     reply (h ++ good_rounds j p m) (Call_dev_hdc1000_get_sensor_data m p) = 0) ->
  reply (h ++ good_rounds k p m) (Call_dev_hdc1000_get_sensor_data m p) = st ->
  st <> 0 ->
  sensor_read_loop fuel p m loop_count h
    = Some (st, h ++ good_rounds k p m ++ failed_round p m st).
Proof.
  induction k as [|k IH]; intros fuel loop_count h st Hc Hk Hfuel Hgood Hst Hne;
    (destruct fuel as [|fuel]; [lia|]);
    cbn [Hdc1000.sensor_read_loop]; unfold bind at 1; unfold call at 1.
  - unfold good_rounds in Hst. cbn [List.repeat List.concat] in Hst.
    rewrite app_nil_r in Hst. rewrite Hst.
    destruct (Z.eqb_spec st 0); [contradiction|]. cbn [negb].
    unfold bind, call_, ret. rewrite <- app_assoc. reflexivity.
  - assert (E : reply h (Call_dev_hdc1000_get_sensor_data m p) = 0).
    { specialize (Hgood 0%nat ltac:(lia)).
      unfold good_rounds in Hgood. cbn [List.repeat List.concat] in Hgood.
      rewrite app_nil_r in Hgood. exact Hgood. }
    rewrite E. cbn [Z.eqb negb].
    unfold bind at 1. unfold call_ at 1. unfold bind at 1. unfold call_ at 1.
    rewrite int_wrap_small by lia.
    destruct (Z.eqb_spec (loop_count - 1) 0); [lia|]. cbn [negb].
    assert (Hh : forall j,
               (((h ++ [Call_dev_hdc1000_get_sensor_data m p])
                   ++ [Call_dev_hdc1000_print_sensor_data m p])
                  ++ [Call_clk_sys_udelay SENSOR_READ_INTERVAL]) ++ good_rounds j p m
               = h ++ good_rounds (S j) p m).
    { intros j. rewrite good_rounds_S, <- !app_assoc. reflexivity. }
    rewrite (IH fuel (loop_count - 1) _ st); try lia.
    + rewrite app_assoc, Hh, <- app_assoc. reflexivity.
    + intros j Hj. rewrite Hh. apply Hgood. lia.
    + rewrite Hh. exact Hst.
Qed.

Lemma sensor_read_loop_nonpositive_spins p m : forall fuel loop_count h,
  (forall h', reply h' (Call_dev_hdc1000_get_sensor_data m p) = 0) ->
  -2147483648 <= loop_count <= 0 ->
  Z.of_nat fuel <= loop_count + 2147483648 ->
  sensor_read_loop fuel p m loop_count h = None.
Proof.
  induction fuel as [|fuel IH]; intros loop_count h Hall Hc Hfuel;
    cbn [Hdc1000.sensor_read_loop]; [reflexivity|].
  unfold bind at 1. unfold call at 1. rewrite Hall. cbn [Z.eqb negb].
  unfold bind at 1. unfold call_ at 1. unfold bind at 1. unfold call_ at 1.
  rewrite int_wrap_small by lia.
  destruct (Z.eqb_spec (loop_count - 1) 0); [lia|]. cbn [negb].
  apply IH; [exact Hall|lia|lia].
Qed.

(** X11. A [loop_count] of zero or below does not mean no pass or one
    pass.  The count is decremented before it is tested, so the loop goes
    on below zero: past the parameter checks, [sensor_read] keeps reading
    until a read fails, and then returns that status after all the good
    passes before it; while every read is answered with [0] it has not left
    the loop after [loop_count + 2^31] passes. *)
Theorem sensor_read_nonpositive_count_keeps_reading p m loop_count :
  QM_CHECK_enabled bld = false \/
  (p <> NULL /\ m <= HDC1000_MEASUREMENT_MODE_COMBINED bld) ->
  -2147483648 <= loop_count <= 0 ->
  (forall k fuel h st,
     Z.of_nat k <= loop_count + 2147483648 ->
     (k < fuel)%nat ->
     (forall j, (j < k)%nat ->
        reply (h ++ good_rounds j p m) (Call_dev_hdc1000_get_sensor_data m p) = 0) ->
     reply (h ++ good_rounds k p m) (Call_dev_hdc1000_get_sensor_data m p) = st ->
     st <> 0 ->
     sensor_read fuel p m loop_count h
       = Some (st, h ++ good_rounds k p m ++ failed_round p m st)) /\
  (forall fuel h,
     (forall h', reply h' (Call_dev_hdc1000_get_sensor_data m p) = 0) ->
     Z.of_nat fuel <= loop_count + 2147483648 ->
     sensor_read fuel p m loop_count h = None).
Proof.
  intros Hok Hc. split.
  - intros k fuel h st Hk Hfuel Hgood Hst Hne.
    rewrite sensor_read_pass by exact Hok.
    apply sensor_read_loop_nonpositive_fails; assumption.
  - intros fuel h Hall Hfuel.
    rewrite sensor_read_pass by exact Hok.
    apply sensor_read_loop_nonpositive_spins; assumption.
Qed.

Lemma bind_eq {A B : Type} (m : M A) (f : A -> M B) h a h1 :
  m h = Some (a, h1) -> bind m f h = f a h1.
Proof. unfold bind. intros ->. reflexivity. Qed.

Lemma bind_bind_eq {A B C : Type} (m : M A) (f : A -> M B) (g : B -> M C) h a h1 :
  m h = Some (a, h1) -> bind (bind m f) g h = bind (f a) g h1.
Proof. unfold bind. intros ->. reflexivity. Qed.

Lemma bus_i2c_init_summary h :
  exists st evs,
    bus_i2c_init h = Some (st, h ++ evs) /\
    filter is_hdc1000_call evs = [] /\
    filter is_printf evs = [] /\
    filter is_get_sensor_data evs = [] /\
    (st <> 0 -> evs = []) /\
    (QM_CHECK_enabled bld = false \/ IS_SUPPORTED_SoC bld = true -> st = 0).
Proof.
  unfold Hdc1000.bus_i2c_init, QM_CHECK.
  destruct (QM_CHECK_enabled bld), (IS_SUPPORTED_SoC bld), (soc bld);
    cbn [andb negb Bool.eqb bind call_ ret];
    first
      [ exists 0; eexists; split; [rewrite <- ?app_assoc; reflexivity|];
        repeat split; try reflexivity;
        intros Hne; exfalso; apply Hne; reflexivity
      | exists (- EINVAL bld), []; rewrite app_nil_r;
        repeat split; try reflexivity;
        intros [Hf|Hf]; discriminate ].
Qed.

Lemma length_filter_get_good_rounds k p m :
  List.length (filter is_get_sensor_data (good_rounds k p m)) = k.
Proof.
  induction k as [|k IH]; [reflexivity|].
  rewrite good_rounds_S, filter_app, length_app, IH. reflexivity.
Qed.

Lemma filter_printf_good_rounds k p m :
  filter is_printf (good_rounds k p m) = [].
Proof.
  induction k as [|k IH]; [reflexivity|].
  rewrite good_rounds_S, filter_app, IH. reflexivity.
Qed.

Lemma filter_hdc1000_id_reads : filter is_hdc1000_call id_reads = id_reads.
Proof. reflexivity. Qed.

(** [sensor_read] as [main] calls it, whatever the checks decide. *)
Lemma sensor_read_num fuel p m h :
  (10 <= fuel)%nat ->
  exists st evs,
    sensor_read fuel p m NUM_SENSOR_READ h = Some (st, h ++ evs) /\
    (List.length (filter is_get_sensor_data evs) <= 10)%nat /\
    (st = 0 -> filter is_printf evs = []).
Proof.
  intros Hfuel.
  assert (Hdec : (QM_CHECK_enabled bld = false \/
                  (p <> NULL /\ m <= HDC1000_MEASUREMENT_MODE_COMBINED bld)) \/
                 (QM_CHECK_enabled bld = true /\
                  (p = NULL \/ HDC1000_MEASUREMENT_MODE_COMBINED bld < m))).
  { destruct (QM_CHECK_enabled bld); [|left; left; reflexivity].
    destruct (Z.eq_dec p NULL) as [Hp|Hp]; [right; auto|].
    destruct (Z.le_gt_cases m (HDC1000_MEASUREMENT_MODE_COMBINED bld));
      [left; right; auto|right; auto]. }
  destruct Hdec as [Hok|(Hen & Hbad)].
  - rewrite sensor_read_pass by exact Hok.
    destruct fuel as [|fuel]; [lia|].
    destruct (sensor_read_loop_runs p m 9 fuel h) as (st & k & Hrun & _ & Hz & Hnz);
      [lia|reflexivity|].
    exists st. eexists. split; [exact Hrun|].
    rewrite !filter_app, length_app, length_filter_get_good_rounds,
      filter_printf_good_rounds.
    destruct (Z.eqb_spec st 0) as [E|E].
    + rewrite (Hz E). split; [cbn; lia|reflexivity].
    + destruct (Hnz E) as (Hk & _). split; [cbn; lia|contradiction].
  - rewrite (sensor_read_rejects_args _ _ _ _ _ Hen Hbad).
    exists (- EINVAL bld), []. rewrite app_nil_r.
    split; [reflexivity|]. split; [cbn; lia|reflexivity].
Qed.

(** X12. [main] always returns.  Its first call prints the starting
    banner and its last call the finishing banner, on every path.  It
    returns [0] exactly when no error line was printed in between, and a
    status other than [0] is reported in a last error line of [main]; the
    sensor data is read at most ten times. *)
Theorem main_returns_between_banners fuel h :
  (10 <= fuel)%nat ->
  exists st evs,
    main fuel h
      = Some (st, h ++ [Call_QM_PUTS "Starting: Grove temperature humidity sensor"]
                    ++ evs
                    ++ [Call_QM_PUTS "Finished: Grove temperature humidity sensor"]) /\
    (st = 0 <-> filter is_printf evs = []) /\
    (st <> 0 -> exists fmt pre, evs = pre ++ [Call_QM_PRINTF fmt "main" st]) /\
    (List.length (filter is_get_sensor_data evs) <= 10)%nat.
Proof.
  intros Hfuel. unfold Hdc1000.main.
  change (bind (call_ ?c) ?f h) with (f tt (h ++ [c])). cbv beta.
  destruct (bus_i2c_init_summary
              (h ++ [Call_QM_PUTS "Starting: Grove temperature humidity sensor"]))
    as (s0 & e0 & Hb & _ & Hp0 & Hg0 & _ & _).
  rewrite (bind_eq _ _ _ _ _ Hb).
  destruct (Z.eqb_spec s0 0) as [E0|E0].
  2:{ unfold bind, call_, ret. exists s0.
      exists (e0 ++ [Call_QM_PRINTF "Error: %s() Bus init failed %d\n" "main" s0]).
      split; [rewrite <- !app_assoc; reflexivity|].
      rewrite !filter_app, Hp0, Hg0. cbn [filter is_printf is_get_sensor_data app].
      split; [split; [contradiction|discriminate]|].
      split; [intros _; eauto|cbn; lia]. }
  destruct (sensor_init_body
              (HDC1000_MEASUREMENT_MODE_COMBINED bld) (HDC1000_RESOLUTION_14BIT bld)
              (HDC1000_BATTERY_STATUS_LOW_INDICATION_DISABLE bld)
              (HDC1000_DO_SOFT_RESET bld)
              ((h ++ [Call_QM_PUTS "Starting: Grove temperature humidity sensor"]) ++ e0))
    as (s1 & e1 & Hi & Hg1 & Hz1 & _); [right; lia|].
  rewrite (bind_bind_eq _ _ _ _ _ _ Hi).
  destruct (Z.eqb_spec s1 0) as [E1|E1].
  2:{ unfold bind, call_, ret. exists s1.
      exists (e0 ++ e1
                 ++ [Call_QM_PRINTF "Error: %s() Sensor init failed %d\n" "main" s1]).
      split; [rewrite <- !app_assoc; reflexivity|].
      rewrite !filter_app, Hp0, Hg0, Hg1.
      cbn [filter is_printf is_get_sensor_data app].
      split; [split; [contradiction|]|].
      { intros Hf. apply (f_equal (@List.length _)) in Hf.
        rewrite !length_app in Hf. cbn in Hf. lia. }
      split; [intros _|cbn; lia].
      eexists. exists (e0 ++ e1). rewrite <- app_assoc. reflexivity. }
  destruct (Hz1 E1) as (-> & _).
  destruct (sensor_read_num fuel (addr_sensor_info bld)
              (HDC1000_MEASUREMENT_MODE_COMBINED bld)
              (((h ++ [Call_QM_PUTS "Starting: Grove temperature humidity sensor"]) ++ e0)
                 ++ id_reads
                 ++ [Call_dev_hdc1000_configure
                       (HDC1000_MEASUREMENT_MODE_COMBINED bld)
                       (HDC1000_RESOLUTION_14BIT bld)
                       (HDC1000_BATTERY_STATUS_LOW_INDICATION_DISABLE bld)
                       (HDC1000_DO_SOFT_RESET bld)]) Hfuel)
    as (s2 & e2 & Hr & Hlen & Hz2).
  rewrite (bind_bind_eq _ _ _ _ _ _ Hr).
  destruct (Z.eqb_spec s2 0) as [E2|E2]; cbn [negb]; unfold bind, call_, ret.
  - exists s2. exists (e0 ++ (id_reads
                       ++ [Call_dev_hdc1000_configure
                             (HDC1000_MEASUREMENT_MODE_COMBINED bld)
                             (HDC1000_RESOLUTION_14BIT bld)
                             (HDC1000_BATTERY_STATUS_LOW_INDICATION_DISABLE bld)
                             (HDC1000_DO_SOFT_RESET bld)]) ++ e2).
    split; [rewrite <- !app_assoc; reflexivity|].
    rewrite !filter_app, Hp0, Hg0, (Hz2 E2).
    cbn [filter is_printf is_get_sensor_data app Hdc1000.id_reads].
    split; [split; [reflexivity|intros _; exact E2]|].
    split; [contradiction|]. exact Hlen.
  - exists s2.
    exists (e0 ++ (id_reads
                       ++ [Call_dev_hdc1000_configure
                             (HDC1000_MEASUREMENT_MODE_COMBINED bld)
                             (HDC1000_RESOLUTION_14BIT bld)
                             (HDC1000_BATTERY_STATUS_LOW_INDICATION_DISABLE bld)
                             (HDC1000_DO_SOFT_RESET bld)]) ++ e2
               ++ [Call_QM_PRINTF "Error: %s() Sensor read failed %d\n" "main" s2]).
    split; [rewrite <- !app_assoc; reflexivity|].
    rewrite !filter_app, Hp0, Hg0.
    cbn [filter is_printf is_get_sensor_data app Hdc1000.id_reads].
    split; [split; [contradiction|]|].
    { intros Hf. apply (f_equal (@List.length _)) in Hf.
      rewrite !length_app in Hf. cbn in Hf. lia. }
    split; [intros _|rewrite length_app; cbn; lia].
    exists "Error: %s() Sensor read failed %d\n"%string.
    exists (e0 ++ (id_reads
                   ++ [Call_dev_hdc1000_configure
                         (HDC1000_MEASUREMENT_MODE_COMBINED bld)
                         (HDC1000_RESOLUTION_14BIT bld)
                         (HDC1000_BATTERY_STATUS_LOW_INDICATION_DISABLE bld)
                         (HDC1000_DO_SOFT_RESET bld)]) ++ e2).
    rewrite <- !app_assoc. reflexivity.
Qed.

Lemma all_succeed_all_zero cs : forall h,
  (forall h' c, reply h' c = 0) -> all_succeed h cs = true.
Proof.
  induction cs as [|c cs IH]; intros h Hall; cbn [Hdc1000.all_succeed];
    [reflexivity|].
  rewrite Hall, IH by exact Hall. reflexivity.
Qed.

(** X13. When the SoC is supported and every driver call is answered with
    [0], [main] returns [0] and these are all its calls, in order: the
    starting banner, the bus set-up (no HDC1000 call among it), the three
    identifier reads, one configure call for combined mode, 14 bit, battery
    indication off and soft reset, ten good passes of read, print and
    three-second wait on [sensor_info], and the finishing banner. *)
Theorem main_all_calls_succeed fuel h :
  (forall h' c, reply h' c = 0) ->
  QM_CHECK_enabled bld = false \/
  (IS_SUPPORTED_SoC bld = true /\ addr_sensor_info bld <> NULL) ->
  (10 <= fuel)%nat ->
  exists bus_calls,
    filter is_hdc1000_call bus_calls = [] /\
    main fuel h
      = Some (0, h ++ [Call_QM_PUTS "Starting: Grove temperature humidity sensor"]
                   ++ bus_calls
                   ++ id_reads
                   ++ [Call_dev_hdc1000_configure
                         (HDC1000_MEASUREMENT_MODE_COMBINED bld)
                         (HDC1000_RESOLUTION_14BIT bld)
                         (HDC1000_BATTERY_STATUS_LOW_INDICATION_DISABLE bld)
                         (HDC1000_DO_SOFT_RESET bld)]
                   ++ good_rounds 10 (addr_sensor_info bld)
                        (HDC1000_MEASUREMENT_MODE_COMBINED bld)
                   ++ [Call_QM_PUTS "Finished: Grove temperature humidity sensor"]).
Proof.
  intros Hall Hok Hfuel. unfold Hdc1000.main.
  change (bind (call_ ?c) ?f h) with (f tt (h ++ [c])). cbv beta.
  destruct (bus_i2c_init_summary
              (h ++ [Call_QM_PUTS "Starting: Grove temperature humidity sensor"]))
    as (s0 & e0 & Hb & Hh0 & _ & _ & _ & Hs0).
  rewrite (bind_eq _ _ _ _ _ Hb).
  assert (E0 : s0 = 0).
  { apply Hs0. destruct Hok as [Hoff|(Hsup & _)]; auto. }
  subst s0. cbn [Z.eqb].
  destruct (sensor_init_body
              (HDC1000_MEASUREMENT_MODE_COMBINED bld) (HDC1000_RESOLUTION_14BIT bld)
              (HDC1000_BATTERY_STATUS_LOW_INDICATION_DISABLE bld)
              (HDC1000_DO_SOFT_RESET bld)
              ((h ++ [Call_QM_PUTS "Starting: Grove temperature humidity sensor"]) ++ e0))
    as (s1 & e1 & Hi & _ & Hz1 & Hnz1 & _); [right; lia|].
  rewrite (bind_bind_eq _ _ _ _ _ _ Hi).
  assert (E1 : s1 = 0).
  { destruct (Z.eq_dec s1 0) as [E|E]; [exact E|].
    destruct (Hnz1 E) as (Hf & _).
    rewrite all_succeed_all_zero in Hf by exact Hall. discriminate. }
  subst s1. cbn [Z.eqb]. destruct (Hz1 eq_refl) as (-> & _).
  rewrite sensor_read_pass.
  2:{ destruct Hok as [Hoff|(_ & Hp)]; [left; exact Hoff|right; split; [exact Hp|lia]]. }
  destruct fuel as [|fuel]; [lia|].
  destruct (sensor_read_loop_runs (addr_sensor_info bld)
              (HDC1000_MEASUREMENT_MODE_COMBINED bld) 9 fuel
              (((h ++ [Call_QM_PUTS "Starting: Grove temperature humidity sensor"]) ++ e0)
                 ++ id_reads
                 ++ [Call_dev_hdc1000_configure
                       (HDC1000_MEASUREMENT_MODE_COMBINED bld)
                       (HDC1000_RESOLUTION_14BIT bld)
                       (HDC1000_BATTERY_STATUS_LOW_INDICATION_DISABLE bld)
                       (HDC1000_DO_SOFT_RESET bld)]))
    as (s2 & k & Hr & _ & Hz2 & Hnz2); [lia|reflexivity|].
  assert (E2 : s2 = 0).
  { destruct (Z.eq_dec s2 0) as [E|E]; [exact E|].
    destruct (Hnz2 E) as (_ & Hf). rewrite Hall in Hf. congruence. }
  subst s2. rewrite (Hz2 eq_refl) in Hr. cbn [Z.eqb] in Hr.
  change (Z.of_nat 10) with NUM_SENSOR_READ in Hr.
  rewrite (bind_bind_eq _ _ _ _ _ _ Hr).
  cbn [Z.eqb negb]. unfold bind, call_, ret.
  exists e0. split; [exact Hh0|].
  rewrite <- !app_assoc. reflexivity.
Qed.

End Props.

(** ** The example run on the sample build *)

(** A measurement mode above [HDC1000_MEASUREMENT_MODE_COMBINED]. *)
Lemma sensor_init_rejects_out_of_range_witness :
  sensor_init sample_build reply_ok 3 0 0 0 [] = Some (- EINVAL sample_build, []).
Proof.
  apply (proj1 (sensor_init_rejects_out_of_range sample_build reply_ok 3 0 0 0 []
                  eq_refl)).
  left. reflexivity.
Defined.

(** The arguments of [main], on a device that answers [0]. *)
Lemma sensor_init_succeeds_iff_witness :
  exists st evs,
    sensor_init sample_build reply_ok 2 2 1 1 [] = Some (st, [] ++ evs) /\
    (st = 0 <->
     all_succeed reply_ok []
       (id_reads sample_build ++ [Call_dev_hdc1000_configure 2 2 1 1]) = true) /\
    (st = 0 -> evs = id_reads sample_build ++ [Call_dev_hdc1000_configure 2 2 1 1]) /\
    (st <> 0 ->
     exists fmt pre, evs = pre ++ [Call_QM_PRINTF fmt "sensor_init" st]).
Proof.
  apply (sensor_init_succeeds_iff sample_build reply_ok 2 2 1 1 []).
  right. cbn. lia.
Defined.

(** Three passes asked for, the second read answered with [-5]. *)
Lemma sensor_read_rounds_witness :
  exists st k,
    sensor_read sample_build (reply_fail_after 3 (-5)) 3 4096 2 3 []
      = Some (st, [] ++ good_rounds k 4096 2
                    ++ (if st =? 0 then [] else failed_round 4096 2 st)) /\
    (st <> 0 ->
     Z.of_nat k < 3 /\
     (forall j, (j < k)%nat ->
        reply_fail_after 3 (-5) ([] ++ good_rounds j 4096 2)
          (Call_dev_hdc1000_get_sensor_data 2 4096) = 0) /\
     reply_fail_after 3 (-5) ([] ++ good_rounds k 4096 2)
       (Call_dev_hdc1000_get_sensor_data 2 4096) = st).
Proof.
  destruct (sensor_read_rounds sample_build (reply_fail_after 3 (-5)) 3 4096 2 3 [])
    as (st & k & Hrun & _ & _ & Hnz).
  - right. split; [discriminate|cbn; lia].
  - lia.
  - cbn. lia.
  - exists st, k. split; [exact Hrun|exact Hnz].
Defined.

(** A NULL pointer. *)
Lemma sensor_read_rejects_or_reads_once_witness :
  sensor_read sample_build reply_ok 0 NULL 2 10 [] = Some (- EINVAL sample_build, []).
Proof.
  apply (proj1 (sensor_read_rejects_or_reads_once sample_build reply_ok
                  0 NULL 2 10 [] eq_refl)).
  left. reflexivity.
Defined.

(** A [loop_count] of zero: two good passes, then a read answered with [-5]. *)
Lemma sensor_read_nonpositive_count_keeps_reading_witness :
  sensor_read sample_build (reply_fail_after 6 (-5)) 3 4096 2 0 []
  = Some (-5, [] ++ good_rounds 2 4096 2 ++ failed_round 4096 2 (-5)).
Proof.
  assert (Hok : QM_CHECK_enabled sample_build = false \/
                (4096 <> NULL /\ 2 <= HDC1000_MEASUREMENT_MODE_COMBINED sample_build)).
  { right. split; [discriminate|cbn; lia]. }
  assert (Hc : -2147483648 <= 0 <= 0) by lia.
  apply (proj1 (sensor_read_nonpositive_count_keeps_reading
                  sample_build (reply_fail_after 6 (-5)) 4096 2 0 Hok Hc)
           2%nat 3%nat [] (-5)).
  - lia.
  - lia.
  - intros [|[|j]] Hj; [reflexivity|reflexivity|lia].
  - reflexivity.
  - discriminate.
Defined.

(** [main] on a device whose second identifier read is answered with [-5]. *)
Lemma main_returns_between_banners_witness :
  exists st evs,
    main sample_build (reply_fail_after 6 (-5)) 10 []
      = Some (st, [] ++ [Call_QM_PUTS "Starting: Grove temperature humidity sensor"]
                    ++ evs
                    ++ [Call_QM_PUTS "Finished: Grove temperature humidity sensor"]) /\
    (st = 0 <-> filter is_printf evs = []) /\
    (st <> 0 -> exists fmt pre, evs = pre ++ [Call_QM_PRINTF fmt "main" st]) /\
    (List.length (filter is_get_sensor_data evs) <= 10)%nat.
Proof.
  apply (main_returns_between_banners sample_build (reply_fail_after 6 (-5)) 10 []).
  lia.
Defined.

(** [main] on a device that answers every call with [0]. *)
Lemma main_all_calls_succeed_witness :
  exists bus_calls,
    filter is_hdc1000_call bus_calls = [] /\
    main sample_build reply_ok 10 []
      = Some (0, [] ++ [Call_QM_PUTS "Starting: Grove temperature humidity sensor"]
                   ++ bus_calls
                   ++ id_reads sample_build
                   ++ [Call_dev_hdc1000_configure 2 2 1 1]
                   ++ good_rounds 10 4096 2
                   ++ [Call_QM_PUTS "Finished: Grove temperature humidity sensor"]).
Proof.
  apply (main_all_calls_succeed sample_build reply_ok 10 []).
  - intros h' c. reflexivity.
  - right. split; [reflexivity|discriminate].
  - lia.
Defined.

End Hdc1000Props.
